(** * CortexSyncDirect: the provider-validation workflow of [orchestrator.py]
      and the request boundary of [app.py]

    The development embeds the comparison node, the confidence formula, the
    routing edge, the five workflow nodes, the graph run and the
    [/api/validate] handler, and settles the properties the specification
    states about them.

    Conventions.
    - Python [int] is [Z].
    - Python [str] is [string]; a character is a code point below 256
      (Latin-1), which covers every literal of the program.  [lower],
      [strip] and [split] follow [str.lower], [str.strip] and [str.split]
      (both without argument) on that range.
    - A Python [dict] with string keys is a [gmap string _]; [d.get(k, v)]
      is [default v (d !! k)].
    - A node mutates the state dict it is given and returns it; here a node
      is a function from the dict to the dict.
    - [StateGraph(AgentState)] is the graph library's; its run is
      [run_graph], with what it keeps of a dict between two nodes as the
      parameter [carry]. *)

From Stdlib Require Import ZArith String Ascii List Bool Lia DecimalString.
From stdpp Require Import base option strings gmap.
Import ListNotations.

Local Open Scope string_scope.
Local Open Scope Z_scope.

(** ** Python strings *)

Module PyStr.

(** Code point of a character. *)
Definition ord (c : ascii) : Z := Z.of_nat (nat_of_ascii c).

Definition chr (z : Z) : ascii := ascii_of_nat (Z.to_nat z).

(** Characters with a lowercase mapping below 256: A-Z, and the Latin-1
    capitals U+00C0-U+00DE without the multiplication sign U+00D7. *)
Definition is_upper (c : ascii) : bool :=
  let n := ord c in
  ((65 <=? n) && (n <=? 90))
  || ((192 <=? n) && (n <=? 222) && negb (n =? 215)).

Definition lower_char (c : ascii) : ascii :=
  if is_upper c then chr (ord c + 32) else c.

(** [s.lower()] *)
Fixpoint lower (s : string) : string :=
  match s with
  | EmptyString => EmptyString
  | String c s' => String (lower_char c) (lower s')
  end.

(** Whitespace of [str.strip()] and [str.split()] below 256: TAB, LF, VT,
    FF, CR, the separators U+001C-U+001F, space, NEL and NBSP. *)
Definition is_space (c : ascii) : bool :=
  let n := ord c in
  ((9 <=? n) && (n <=? 13))
  || ((28 <=? n) && (n <=? 32))
  || (n =? 133) || (n =? 160).

Fixpoint lstrip (s : string) : string :=
  match s with
  | EmptyString => EmptyString
  | String c s' => if is_space c then lstrip s' else s
  end.

Fixpoint rstrip (s : string) : string :=
  match s with
  | EmptyString => EmptyString
  | String c s' =>
      match rstrip s' with
      | EmptyString => if is_space c then EmptyString else String c EmptyString
      | r => String c r
      end
  end.

(** [s.strip()] *)
Definition strip (s : string) : string := rstrip (lstrip s).

(** [s.split()]: the maximal runs of non-whitespace characters.  [w] is
    the word being read, if any. *)
Fixpoint split_from (w : option string) (s : string) : list string :=
  match s with
  | EmptyString => match w with Some x => [x] | None => [] end
  | String c s' =>
      if is_space c then
        match w with
        | Some x => x :: split_from None s'
        | None => split_from None s'
        end
      else
        split_from (Some (default EmptyString w ++ String c EmptyString)) s'
  end.

Definition split (s : string) : list string := split_from None s.

(** [a in b] on strings: [a] occurs in [b] as a contiguous run. *)
Fixpoint isin (a b : string) : bool :=
  String.prefix a b
  || match b with
     | EmptyString => false
     | String _ b' => isin a b'
     end.

(** [len(x)] as a Python integer. *)
Definition len {A} (l : list A) : Z := Z.of_nat (List.length l).

End PyStr.

(** ** Values, records and discrepancies *)

(** The values the program stores in a record: strings, and the integer
    identifier under ["id"]. *)
Inductive pyval :=
| PStr (s : string)
| PInt (z : Z).

(** [str(v)] *)
Definition py_str (v : pyval) : string :=
  match v with
  | PStr s => s
  | PInt z => NilZero.string_of_int (Z.to_int z)
  end.

(** The entries appended to [discrepancies]. *)
Record Discrepancy := mkDiscrepancy {
  field : string;
  db_value : string;
  scraped_value : string
}.

(** A record as the program builds it: the identifier and the nine
    compared fields. *)
Definition provider_record (id : Z)
    (name specialty phone address city state zip license_number npi : string)
    : gmap string pyval :=
  list_to_map
    [ ("id", PInt id); ("name", PStr name); ("specialty", PStr specialty);
      ("phone", PStr phone); ("address", PStr address); ("city", PStr city);
      ("state", PStr state); ("zip", PStr zip);
      ("license_number", PStr license_number); ("npi", PStr npi) ].

(** ** State management *)

Inductive Status := pending | verified | flagged.

(** The state dict handed to a node.  [AgentState] declares the first six
    keys; [_expected_confidence] is the key [fetch_provider_node] adds, [None]
    when the dict does not hold it. *)
Record AgentState := mkAgentState {
  provider_id : Z;
  current_db_data : gmap string pyval;
  scraped_data : gmap string pyval;
  discrepancies : list Discrepancy;
  confidence_score : Z;
  status : Status;
  _expected_confidence : option Z
}.

(** ** Mock data providers *)

(** One entry of the table: the keys ["db"], ["scraped"] and ["confidence"]. *)
Record ProviderEntry := mkEntry {
  entry_db : gmap string pyval;
  entry_scraped : gmap string pyval;
  entry_confidence : option Z
}.

Definition providers : gmap Z ProviderEntry :=
  list_to_map
    [ (1001, mkEntry
         (provider_record 1001 "Dr. Rajesh Kumar" "Cardiology" "+91-11-2658-3456"
            "A-123, Green Park" "New Delhi" "Delhi" "110016" "MCI/DEL/12345/2010" "9876543210")
         (provider_record 1001 "Dr. Rajesh Kumar" "Cardiology" "+91-11-2658-3456"
            "A-123, Green Park" "New Delhi" "Delhi" "110016" "MCI/DEL/12345/2010" "9876543210")
         (Some 85));
      (1002, mkEntry
         (provider_record 1002 "Dr. Priya Sharma" "Pediatrics" "+91-22-2645-7890"
            "B-456, Bandra West" "Mumbai" "Maharashtra" "400050" "MCI/MAH/23456/2012" "8765432109")
         (provider_record 1002 "Dr. Priya Sharma" "Pediatrics" "+91-22-2645-7890"
            "B-456, Bandra West" "Mumbai" "Maharashtra" "400050" "MCI/MAH/23456/2012" "8765432109")
         (Some 92));
      (1003, mkEntry
         (provider_record 1003 "Dr. Amit Patel" "Orthopedics" "+91-79-2658-1234"
            "C-789, Satellite" "Ahmedabad" "Gujarat" "380015" "MCI/GUJ/34567/2015" "7654321098")
         (provider_record 1003 "Dr. Amit Patel" "Orthopedics" "+91-79-2658-1234"
            "C-789, Satellite Area" "Ahmedabad" "Gujarat" "380015" "MCI/GUJ/34567/2015" "7654321098")
         (Some 88));
      (2001, mkEntry
         (provider_record 2001 "Dr. Anjali Reddy" "Dermatology" "+91-40-2789-4567"
            "D-321, Banjara Hills" "Hyderabad" "Telangana" "500034" "MCI/TEL/45678/2011" "6543210987")
         (provider_record 2001 "Dr. Anjali Reddy" "Dermatology" "+91-40-2789-4568"
            "D-321, Banjara Hills" "Hyderabad" "Telangana" "500034" "MCI/TEL/45678/2011" "6543210987")
         (Some 78));
      (2002, mkEntry
         (provider_record 2002 "Dr. Vikram Singh" "Neurology" "+91-80-2558-9876"
            "E-654, Koramangala" "Bangalore" "Karnataka" "560095" "MCI/KAR/56789/2013" "5432109876")
         (provider_record 2002 "Dr. Vikram Singh" "Neurology" "+91-80-2558-9876"
            "E-654, Koramangala 5th Block" "Bangalore" "Karnataka" "560095" "MCI/KAR/56789/2013" "5432109876")
         (Some 75));
      (3001, mkEntry
         (provider_record 3001 "Dr. Meera Nair" "Gynecology" "+91-44-2845-2345"
            "F-987, T. Nagar" "Chennai" "Tamil Nadu" "600017" "MCI/TN/67890/2014" "4321098765")
         (provider_record 3001 "Dr. Meera Nair" "Gynecology" "+91-44-2845-2346"
            "F-987, Thyagaraya Nagar" "Chennai" "Tamil Nadu" "600017" "MCI/TN/67890/2014" "4321098765")
         (Some 65));
      (3002, mkEntry
         (provider_record 3002 "Dr. Ravi Iyer" "Oncology" "+91-33-2445-6789"
            "G-147, Salt Lake" "Kolkata" "West Bengal" "700064" "MCI/WB/78901/2016" "3210987654")
         (provider_record 3002 "Dr. Ravi Iyer" "Oncology" "+91-33-2445-6790"
            "G-147, Salt Lake City" "Kolkata" "West Bengal" "700064" "MCI/WB/78901/2016" "3210987654")
         (Some 68));
      (4001, mkEntry
         (provider_record 4001 "Dr. Kavita Desai" "Endocrinology" "+91-20-2558-3456"
            "H-258, Koregaon Park" "Pune" "Maharashtra" "411001" "MCI/MAH/89012/2017" "2109876543")
         (provider_record 4001 "Dr. Kavita Desai" "Endocrinology" "+91-20-2558-3456"
            "H-258, Koregaon Park" "Pune" "Maharashtra" "411001" "MCI/MAH/89012/2017" "2109876543")
         (Some 90)) ].

(** The entry returned for an identifier that is not in the table. *)
Definition default_provider (provider_id : Z) : ProviderEntry :=
  mkEntry
    (provider_record provider_id "Dr. Arjun Mehta" "General Medicine" "+91-11-2658-3456"
       "I-369, Connaught Place" "New Delhi" "Delhi" "110001" "MCI/DEL/90123/2018" "1098765432")
    (provider_record provider_id "Dr. Arjun Mehta" "General Medicine" "+91-11-2658-3457"
       "I-369, Connaught Place" "New Delhi" "Delhi" "110001" "MCI/DEL/90123/2018" "1098765432")
    (Some 75).

Definition get_mock_provider_data (provider_id : Z) : ProviderEntry :=
  match providers !! provider_id with
  | Some e => e
  | None => default_provider provider_id
  end.

(** ** Workflow nodes *)

Definition fetch_provider_node (state : AgentState) : AgentState :=
  let provider_data := get_mock_provider_data (provider_id state) in
  let mock_db_data := entry_db provider_data in
  {| provider_id := provider_id state;
     current_db_data := mock_db_data;
     scraped_data := scraped_data state;
     discrepancies := discrepancies state;
     confidence_score := confidence_score state;
     status := pending;
     _expected_confidence := Some (default 75 (entry_confidence provider_data)) |}.

Definition scrape_web_node (state : AgentState) : AgentState :=
  let provider_data := get_mock_provider_data (provider_id state) in
  let mock_scraped_data := entry_scraped provider_data in
  {| provider_id := provider_id state;
     current_db_data := current_db_data state;
     scraped_data := mock_scraped_data;
     discrepancies := [];
     confidence_score := confidence_score state;
     status := status state;
     _expected_confidence := _expected_confidence state |}.

Definition fields_to_compare : list string :=
  [ "name"; "specialty"; "phone"; "address"; "city"; "state"; "zip";
    "license_number"; "npi" ].

(** [str(value).lower().strip()] *)
Definition normalize (value : pyval) : string :=
  PyStr.strip (PyStr.lower (py_str value)).

(** [d.get(field, "")] *)
Definition get_field (d : gmap string pyval) (field : string) : pyval :=
  default (PStr "") (d !! field).

(** [a or b or field == "address" and (...)]: the conjunction binds tighter
    than the disjunctions.  The word counts are compared as integers, so a
    right-hand side of [-1] equals no count. *)
Definition is_minor_variation (field db_normalized scraped_normalized : string) : bool :=
  PyStr.isin db_normalized scraped_normalized
  || PyStr.isin scraped_normalized db_normalized
  || (String.eqb field "address"
      && (PyStr.len (PyStr.split db_normalized)
          =? PyStr.len (PyStr.split scraped_normalized) - 1)).

(** One turn of the loop over [fields_to_compare]: the list after the turn. *)
Definition compare_field (db_data scraped_data : gmap string pyval)
    (discrepancies : list Discrepancy) (field : string) : list Discrepancy :=
  let db_value := get_field db_data field in
  let scraped_value := get_field scraped_data field in
  let db_normalized := normalize db_value in
  let scraped_normalized := normalize scraped_value in
  if negb (String.eqb db_normalized scraped_normalized) then
    if negb (is_minor_variation field db_normalized scraped_normalized) then
      discrepancies
        ++ [ {| field := field;
                db_value := py_str db_value;
                scraped_value := py_str scraped_value |} ]
    else discrepancies
  else discrepancies.

Definition find_discrepancies (db_data scraped_data : gmap string pyval)
    : list Discrepancy :=
  fold_left (compare_field db_data scraped_data) fields_to_compare [].

(** The score from the optional [_expected_confidence] and the list found. *)
Definition score (expected : option Z) (discrepancies : list Discrepancy) : Z :=
  match expected with
  | Some confidence_score =>
      if PyStr.len discrepancies >? 0
      then Z.max 0 (confidence_score - PyStr.len discrepancies * 5)
      else confidence_score
  | None =>
      let discrepancy_count := PyStr.len discrepancies in
      if discrepancy_count =? 0 then 95
      else if discrepancy_count =? 1 then 75
      else Z.max 0 (100 - discrepancy_count * 20)
  end.

Definition quality_assurance_node (state : AgentState) : AgentState :=
  let db_data := current_db_data state in
  let scraped_data := scraped_data state in
  let discrepancies := find_discrepancies db_data scraped_data in
  let confidence_score := score (_expected_confidence state) discrepancies in
  {| provider_id := provider_id state;
     current_db_data := db_data;
     scraped_data := scraped_data;
     discrepancies := discrepancies;
     confidence_score := confidence_score;
     status := status state;
     _expected_confidence := _expected_confidence state |}.

Definition set_status (s : Status) (state : AgentState) : AgentState :=
  {| provider_id := provider_id state;
     current_db_data := current_db_data state;
     scraped_data := scraped_data state;
     discrepancies := discrepancies state;
     confidence_score := confidence_score state;
     status := s;
     _expected_confidence := _expected_confidence state |}.

Definition update_db_node (state : AgentState) : AgentState :=
  set_status verified state.

Definition flag_review_node (state : AgentState) : AgentState :=
  set_status flagged state.

(** ** Conditional edge *)

(** The two results of [should_update_db]. *)
Inductive Route := update_db | flag_review.

Definition should_update_db (state : AgentState) : Route :=
  if confidence_score state >? 80 then update_db else flag_review.

Definition route_name (r : Route) : string :=
  match r with
  | update_db => "update_db"
  | flag_review => "flag_review"
  end.

(** The node the conditional edge maps a route to. *)
Definition route_node (r : Route) : AgentState -> AgentState :=
  match r with
  | update_db => update_db_node
  | flag_review => flag_review_node
  end.

(** Routing a state: the conditional edge followed by the node it selects. *)
Definition route (state : AgentState) : AgentState :=
  route_node (should_update_db state) state.

(** A state holding a given confidence and nothing else of interest. *)
Definition state_with_confidence (c : Z) : AgentState :=
  {| provider_id := 0; current_db_data := ∅; scraped_data := ∅;
     discrepancies := []; confidence_score := c; status := pending;
     _expected_confidence := None |}.

(** ** Graph construction and run *)

(** The keys [AgentState] declares.  [StateGraph(AgentState)] keeps one
    channel per declared key: a node is called on a dict read from the
    channels, and of the dict it returns only the declared keys are written
    back.  [_expected_confidence] is not declared, so it is not kept. *)
Definition declared_keys (state : AgentState) : AgentState :=
  {| provider_id := provider_id state;
     current_db_data := current_db_data state;
     scraped_data := scraped_data state;
     discrepancies := discrepancies state;
     confidence_score := confidence_score state;
     status := status state;
     _expected_confidence := None |}.

Section Graph.

(** What the run keeps of a state dict between two nodes. *)
Variable carry : AgentState -> AgentState.

(** The graph of [create_workflow_graph]: entry point [fetch_provider],
    edges fetch_provider -> scrape_web -> quality_assurance, the
    conditional edge after quality_assurance, and update_db and
    flag_review leading to END.  The result is the list of the nodes run,
    in order, and the final state. *)
Definition run_graph (initial_state : AgentState) : list string * AgentState :=
  let s0 := carry initial_state in
  let s1 := carry (fetch_provider_node s0) in
  let s2 := carry (scrape_web_node s1) in
  let s3 := carry (quality_assurance_node s2) in
  let r := should_update_db s3 in
  ( [ "fetch_provider"; "scrape_web"; "quality_assurance"; route_name r ],
    carry (route_node r s3) ).

(** The state dict [quality_assurance_node] is called on during a run. *)
Definition qa_input (initial_state : AgentState) : AgentState :=
  carry (scrape_web_node (carry (fetch_provider_node (carry initial_state)))).

End Graph.

(** [graph.invoke(initial_state)] on the compiled [StateGraph(AgentState)]. *)
Definition invoke : AgentState -> list string * AgentState :=
  run_graph declared_keys.

(** The five node functions applied to one another's returned dict, with
    every key kept: the run without the graph library in between. *)
Definition invoke_threaded : AgentState -> list string * AgentState :=
  run_graph id.

(** ** The request boundary ([app.py]) *)

Record HTTPException := mkHTTPException {
  status_code : Z;
  detail : string
}.

Record WorkflowResponse := mkWorkflowResponse {
  success : bool;
  response_provider_id : Z;
  response_status : Status;
  response_confidence_score : Z;
  response_current_db_data : gmap string pyval;
  response_scraped_data : gmap string pyval;
  response_discrepancies : list Discrepancy;
  workflow_steps : list string;
  message : string
}.

(** What a call of the handler does before it answers: it builds the
    initial state, and the graph runs nodes. *)
Inductive Event :=
| state_built
| node_ran (name : string).

Definition initial_state (provider_id : Z) : AgentState :=
  {| provider_id := provider_id; current_db_data := ∅; scraped_data := ∅;
     discrepancies := []; confidence_score := 0; status := pending;
     _expected_confidence := None |}.

(** [validate_provider(request)]: the events of the call, and either the
    raised [HTTPException] or the response.  No step of the run raises, so
    the [except] clause is never entered. *)
Definition validate_provider (request_provider_id : Z)
    : list Event * (HTTPException + WorkflowResponse) :=
  if request_provider_id <=? 0 then
    ([], inl (mkHTTPException 400 "Provider ID must be a positive integer"))
  else
    let '(ran, final_state) := invoke (initial_state request_provider_id) in
    let workflow_steps :=
      if confidence_score final_state >? 80
      then ["fetch_provider"; "scrape_web"; "quality_assurance"; "update_db"]
      else ["fetch_provider"; "scrape_web"; "quality_assurance"; "flag_review"] in
    let message :=
      match status final_state with
      | verified =>
          "Provider " ++ py_str (PInt request_provider_id)
            ++ " has been verified and updated in the database."
      | _ =>
          "Provider " ++ py_str (PInt request_provider_id)
            ++ " has been flagged for human review due to data discrepancies."
      end in
    ( state_built :: map node_ran ran,
      inr {| success := true;
             response_provider_id := provider_id final_state;
             response_status := status final_state;
             response_confidence_score := confidence_score final_state;
             response_current_db_data := current_db_data final_state;
             response_scraped_data := scraped_data final_state;
             response_discrepancies := discrepancies final_state;
             workflow_steps := workflow_steps;
             message := message |} ).

(** Whether a list of discrepancies holds an entry for a field. *)
Definition recorded (f : string) (ds : list Discrepancy) : bool :=
  existsb (fun d => String.eqb (field d) f) ds.

(** The record with the single key [k]. *)
Definition single (k v : string) : gmap string pyval := {[ k := PStr v ]}.

(** A state dict holding a record pair and an optional baseline, as
    [quality_assurance_node] reads it. *)
Definition qa_state (db_data scraped_data : gmap string pyval)
    (expected : option Z) : AgentState :=
  {| provider_id := 0; current_db_data := db_data; scraped_data := scraped_data;
     discrepancies := []; confidence_score := 0; status := pending;
     _expected_confidence := expected |}.

(** The pair of the table entry of an identifier, with a baseline. *)
Definition table_state (id : Z) (expected : option Z) : AgentState :=
  qa_state (entry_db (get_mock_provider_data id))
           (entry_scraped (get_mock_provider_data id)) expected.

(** ** The lazily built graph handle ([app.py]) *)

(** A compiled graph, as far as the handler uses it: its [invoke]. *)
Definition CompiledGraph : Type := AgentState -> list string * AgentState.

(** [create_workflow_graph()]: the compiled [StateGraph(AgentState)]. *)
Definition create_workflow_graph : CompiledGraph := invoke.

(** The module-level [workflow_graph], [None] until the first use, with the
    number of calls of [create_workflow_graph] made so far. *)
Record Globals := mkGlobals {
  workflow_graph : option CompiledGraph;
  graphs_created : nat
}.

Definition fresh_globals : Globals :=
  {| workflow_graph := None; graphs_created := 0 |}.

(** [get_workflow_graph()]: the handle, and the globals after the call. *)
Definition get_workflow_graph (g : Globals) : CompiledGraph * Globals :=
  match workflow_graph g with
  | None =>
      ( create_workflow_graph,
        {| workflow_graph := Some create_workflow_graph;
           graphs_created := S (graphs_created g) |} )
  | Some graph => (graph, g)
  end.

(** [validate_provider(request)] with the module globals threaded through:
    the events and the answer of the call, and the globals after it. *)
Definition handle_request (request_provider_id : Z) (g : Globals)
    : (list Event * (HTTPException + WorkflowResponse)) * Globals :=
  if request_provider_id <=? 0 then
    (([], inl (mkHTTPException 400 "Provider ID must be a positive integer")), g)
  else
    let '(graph, g') := get_workflow_graph g in
    let '(ran, final_state) := graph (initial_state request_provider_id) in
    let workflow_steps :=
      if confidence_score final_state >? 80
      then ["fetch_provider"; "scrape_web"; "quality_assurance"; "update_db"]
      else ["fetch_provider"; "scrape_web"; "quality_assurance"; "flag_review"] in
    let message :=
      match status final_state with
      | verified =>
          "Provider " ++ py_str (PInt request_provider_id)
            ++ " has been verified and updated in the database."
      | _ =>
          "Provider " ++ py_str (PInt request_provider_id)
            ++ " has been flagged for human review due to data discrepancies."
      end in
    ( ( state_built :: map node_ran ran,
        inr {| success := true;
               response_provider_id := provider_id final_state;
               response_status := status final_state;
               response_confidence_score := confidence_score final_state;
               response_current_db_data := current_db_data final_state;
               response_scraped_data := scraped_data final_state;
               response_discrepancies := discrepancies final_state;
               workflow_steps := workflow_steps;
               message := message |} ),
      g' ).

(** The server answering a sequence of requests, one after the other. *)
Fixpoint serve (requests : list Z) (g : Globals)
    : list (list Event * (HTTPException + WorkflowResponse)) * Globals :=
  match requests with
  | [] => ([], g)
  | r :: rest =>
      let '(answer, g') := handle_request r g in
      let '(answers, g'') := serve rest g' in
      (answer :: answers, g'')
  end.

(** ** Auxiliary notions for the properties *)

(** The test of one turn of the comparison loop: the normalized values
    differ and the difference is no minor variation. *)
Definition is_discrepancy (db_data scraped_data : gmap string pyval)
    (field : string) : bool :=
  negb (String.eqb (normalize (get_field db_data field))
                   (normalize (get_field scraped_data field)))
  && negb (is_minor_variation field
             (normalize (get_field db_data field))
             (normalize (get_field scraped_data field))).

(** The state with the two records exchanged. *)
Definition swap_records (state : AgentState) : AgentState :=
  {| provider_id := provider_id state;
     current_db_data := scraped_data state;
     scraped_data := current_db_data state;
     discrepancies := discrepancies state;
     confidence_score := confidence_score state;
     status := status state;
     _expected_confidence := _expected_confidence state |}.

(** Every character of a string is whitespace. *)
Definition all_space (s : string) : bool :=
  forallb PyStr.is_space (list_ascii_of_string s).

(** The state with the value of one field of the database record set. *)
Definition with_db_value (state : AgentState) (f v : string) : AgentState :=
  {| provider_id := provider_id state;
     current_db_data := <[ f := PStr v ]> (current_db_data state);
     scraped_data := scraped_data state;
     discrepancies := discrepancies state;
     confidence_score := confidence_score state;
     status := status state;
     _expected_confidence := _expected_confidence state |}.

(** The state with the value of one field of the scraped record set. *)
Definition with_scraped_value (state : AgentState) (f v : string) : AgentState :=
  {| provider_id := provider_id state;
     current_db_data := current_db_data state;
     scraped_data := <[ f := PStr v ]> (scraped_data state);
     discrepancies := discrepancies state;
     confidence_score := confidence_score state;
     status := status state;
     _expected_confidence := _expected_confidence state |}.

(** * Properties *)

(** ** Strings *)

Lemma isin_empty (s : string) : PyStr.isin "" s = true.
Proof. destruct s; reflexivity. Qed.

Lemma isin_refl (s : string) : PyStr.isin s s = true.
Proof.
  destruct s as [|c s]; [reflexivity|].
  cbn [PyStr.isin]. rewrite (proj2 (String.prefix_correct _ _)); [reflexivity|].
  cbn [String.length String.substring]. f_equal.
  induction s as [|d s IH]; [reflexivity|].
  cbn [String.length String.substring]. now rewrite IH.
Qed.

Lemma prefix_spec (a : string) :
  forall b, String.prefix a b = true <-> exists q, b = a ++ q.
Proof.
  induction a as [|c a IH]; intros b.
  - split; [intros _; now exists b | intros _; now destruct b].
  - destruct b as [|d b]; cbn [String.prefix].
    + split; [discriminate | intros [q Hq]; discriminate Hq].
    + destruct (ascii_dec c d) as [->|Hne].
      * rewrite IH. split; intros [q Hq]; exists q.
        -- cbn. now rewrite Hq.
        -- cbn in Hq. now injection Hq.
      * split; [discriminate | intros [q Hq]; cbn in Hq; injection Hq; congruence].
Qed.

(** [isin a b] holds exactly when [b] is [a] between two strings. *)
Lemma isin_spec (a : string) :
  forall b, PyStr.isin a b = true <-> exists p q, b = p ++ a ++ q.
Proof.
  induction b as [|d b IH]; cbn [PyStr.isin]; rewrite orb_true_iff, prefix_spec.
  - split.
    + intros [[q Hq]|Hf]; [now exists "", q | discriminate Hf].
    + intros ([|e p] & q & Hq); [left; now exists q | discriminate Hq].
  - rewrite IH. split.
    + intros [[q Hq]|(p & q & Hq)]; [now exists "", q|].
      exists (String d p), q. cbn. now rewrite Hq.
    + intros ([|e p] & q & Hq); [left; now exists q|].
      right. exists p, q. cbn in Hq. now injection Hq.
Qed.

Lemma normalize_empty : normalize (PStr "") = "".
Proof. reflexivity. Qed.

Lemma get_field_missing (d : gmap string pyval) (f : string) :
  d !! f = None -> get_field d f = PStr "".
Proof. unfold get_field. now intros ->. Qed.

Example lower_ex : PyStr.lower "C-789, Satellite Area" = "c-789, satellite area".
Proof. reflexivity. Qed.

Example strip_ex : PyStr.strip "  New  Delhi " = "New  Delhi".
Proof. reflexivity. Qed.

Example split_ex :
  PyStr.split " c-789,  satellite area " = ["c-789,"; "satellite"; "area"]
  /\ PyStr.split "   " = [].
Proof. split; reflexivity. Qed.

Example isin_ex :
  PyStr.isin "lake" "salt lake city" = true
  /\ PyStr.isin "lakes" "salt lake city" = false.
Proof. split; reflexivity. Qed.

Example py_str_ex :
  py_str (PInt 1001) = "1001" /\ py_str (PInt (-5)) = "-5" /\ py_str (PInt 0) = "0".
Proof. repeat split; reflexivity. Qed.

(** The table as the fetch and scrape nodes read it. *)
Example table_ex :
  entry_confidence (get_mock_provider_data 3002) = Some 68
  /\ entry_scraped (get_mock_provider_data 3002) !! "address"
     = Some (PStr "G-147, Salt Lake City")
  /\ entry_db (get_mock_provider_data 7) !! "id" = Some (PInt 7)
  /\ entry_confidence (get_mock_provider_data 7) = Some 75.
Proof. repeat split; vm_compute; reflexivity. Qed.

(** ** The comparison loop *)

Lemma recorded_app (f : string) (xs ys : list Discrepancy) :
  recorded f (xs ++ ys) = recorded f xs || recorded f ys.
Proof. apply existsb_app. Qed.

(** What one turn of the loop adds for the field [f]. *)
Lemma recorded_compare_field db sc acc g f :
  recorded f (compare_field db sc acc g) = true ->
  recorded f acc = true
  \/ (g = f
      /\ normalize (get_field db f) <> normalize (get_field sc f)
      /\ is_minor_variation f (normalize (get_field db f))
           (normalize (get_field sc f)) = false).
Proof.
  unfold compare_field.
  destruct (String.eqb_spec (normalize (get_field db g)) (normalize (get_field sc g)))
    as [Heq|Hne]; cbn [negb]; [now left|].
  destruct (is_minor_variation g _ _) eqn:Hminor; cbn [negb]; [now left|].
  rewrite recorded_app. intros H.
  apply orb_true_iff in H as [H|H]; [now left|].
  cbn in H. rewrite orb_false_r in H.
  apply String.eqb_eq in H. subst g. right. auto.
Qed.

Lemma recorded_fold db sc f (l : list string) :
  forall acc,
    recorded f (fold_left (compare_field db sc) l acc) = true ->
    recorded f acc = true
    \/ (normalize (get_field db f) <> normalize (get_field sc f)
        /\ is_minor_variation f (normalize (get_field db f))
             (normalize (get_field sc f)) = false).
Proof.
  induction l as [|g l IH]; intros acc H; cbn [fold_left] in H.
  - now left.
  - apply IH in H as [H|H]; [|now right].
    apply recorded_compare_field in H as [H|(_ & H)]; [now left|now right].
Qed.

(** A field is recorded only when its normalized values differ and the
    difference is not a minor variation. *)
Lemma recorded_find_discrepancies db sc f :
  recorded f (find_discrepancies db sc) = true ->
  normalize (get_field db f) <> normalize (get_field sc f)
  /\ is_minor_variation f (normalize (get_field db f))
       (normalize (get_field sc f)) = false.
Proof.
  intros H. apply recorded_fold in H as [H|H]; [discriminate H|exact H].
Qed.

Lemma not_recorded (b : bool) : (b = true -> False) -> b = false.
Proof. destruct b; intuition. Qed.

Lemma qa_discrepancies (state : AgentState) :
  discrepancies (quality_assurance_node state)
  = find_discrepancies (current_db_data state) (scraped_data state).
Proof. reflexivity. Qed.

Lemma qa_confidence (state : AgentState) :
  confidence_score (quality_assurance_node state)
  = score (_expected_confidence state)
      (find_discrepancies (current_db_data state) (scraped_data state)).
Proof. reflexivity. Qed.

(** C5. For every field, if the two values are equal after normalization
    (coerced to a string, lowercased, surrounding whitespace trimmed), the
    comparison records no discrepancy for that field. *)
Theorem normalized_equal_no_discrepancy (state : AgentState) (f : string) :
  normalize (get_field (current_db_data state) f)
    = normalize (get_field (scraped_data state) f) ->
  recorded f (discrepancies (quality_assurance_node state)) = false.
Proof.
  intros Heq. rewrite qa_discrepancies. apply not_recorded. intros H.
  apply recorded_find_discrepancies in H as [Hne _]. now apply Hne.
Qed.

Lemma normalized_equal_no_discrepancy_witness :
  normalize (get_field (current_db_data (qa_state (single "name" " Dr. Amit PATEL") (single "name" "dr. amit patel  ") None)) "name")
    = normalize (get_field (scraped_data (qa_state (single "name" " Dr. Amit PATEL") (single "name" "dr. amit patel  ") None)) "name")
  /\ recorded "name"
       (discrepancies (quality_assurance_node
          (qa_state (single "name" " Dr. Amit PATEL") (single "name" "dr. amit patel  ") None)))
     = false.
Proof.
  split; [vm_compute; reflexivity|].
  apply normalized_equal_no_discrepancy. vm_compute. reflexivity.
Defined.

(** Either containment rules the field out of the list. *)
Lemma substring_sides (state : AgentState) (f : string) :
  PyStr.isin (normalize (get_field (current_db_data state) f))
             (normalize (get_field (scraped_data state) f)) = true
  \/ PyStr.isin (normalize (get_field (scraped_data state) f))
                (normalize (get_field (current_db_data state) f)) = true ->
  recorded f (discrepancies (quality_assurance_node state)) = false.
Proof.
  intros Hsub. rewrite qa_discrepancies. apply not_recorded. intros H.
  apply recorded_find_discrepancies in H as [_ Hminor].
  unfold is_minor_variation in Hminor.
  apply orb_false_iff in Hminor as [Hminor _].
  apply orb_false_iff in Hminor as [H1 H2].
  destruct Hsub as [Hsub|Hsub]; congruence.
Qed.

(** C6. The substring check is symmetric: for every field, if either
    normalized value occurs in the other, no discrepancy is recorded for
    that field, whichever record holds the longer value. *)
Theorem substring_either_way_no_discrepancy (state : AgentState) (f : string) :
  PyStr.isin (normalize (get_field (current_db_data state) f))
             (normalize (get_field (scraped_data state) f)) = true
  \/ PyStr.isin (normalize (get_field (scraped_data state) f))
                (normalize (get_field (current_db_data state) f)) = true ->
  recorded f (discrepancies (quality_assurance_node state)) = false.
Proof. apply substring_sides. Qed.

Lemma substring_either_way_no_discrepancy_witness :
  (PyStr.isin (normalize (get_field (current_db_data (table_state 3002 None)) "address"))
              (normalize (get_field (scraped_data (table_state 3002 None)) "address")) = true
   /\ recorded "address" (discrepancies (quality_assurance_node (table_state 3002 None))) = false)
  /\ (PyStr.isin (normalize (get_field (scraped_data (qa_state (single "city" "Salt Lake City") (single "city" "salt lake") None)) "city"))
                 (normalize (get_field (current_db_data (qa_state (single "city" "Salt Lake City") (single "city" "salt lake") None)) "city")) = true
      /\ recorded "city"
           (discrepancies (quality_assurance_node
              (qa_state (single "city" "Salt Lake City") (single "city" "salt lake") None)))
         = false).
Proof.
  split; split.
  - vm_compute. reflexivity.
  - apply substring_either_way_no_discrepancy. left. vm_compute. reflexivity.
  - vm_compute. reflexivity.
  - apply substring_either_way_no_discrepancy. right. vm_compute. reflexivity.
Defined.

(** The converse direction: a compared field whose normalized values differ
    by more than a minor variation is recorded. *)
Lemma recorded_compare_field_keep db sc acc g f :
  recorded f acc = true -> recorded f (compare_field db sc acc g) = true.
Proof.
  intros Hacc. unfold compare_field.
  destruct (negb (String.eqb _ _)); [|exact Hacc].
  destruct (negb (is_minor_variation _ _ _)); [|exact Hacc].
  rewrite recorded_app, Hacc. reflexivity.
Qed.

Lemma recorded_compare_field_hit db sc acc f :
  normalize (get_field db f) <> normalize (get_field sc f) ->
  is_minor_variation f (normalize (get_field db f)) (normalize (get_field sc f)) = false ->
  recorded f (compare_field db sc acc f) = true.
Proof.
  intros Hne Hminor. unfold compare_field.
  rewrite (proj2 (String.eqb_neq _ _) Hne), Hminor. cbn [negb].
  rewrite recorded_app. cbn [recorded existsb field].
  rewrite String.eqb_refl. apply orb_true_iff. right. reflexivity.
Qed.

Lemma recorded_fold_keep db sc f (l : list string) :
  forall acc,
    recorded f acc = true ->
    recorded f (fold_left (compare_field db sc) l acc) = true.
Proof.
  induction l as [|g l IH]; intros acc Hacc; cbn [fold_left]; [exact Hacc|].
  apply IH. now apply recorded_compare_field_keep.
Qed.

Lemma recorded_fold_hit db sc f (l : list string) :
  forall acc,
    In f l ->
    normalize (get_field db f) <> normalize (get_field sc f) ->
    is_minor_variation f (normalize (get_field db f)) (normalize (get_field sc f)) = false ->
    recorded f (fold_left (compare_field db sc) l acc) = true.
Proof.
  induction l as [|g l IH]; intros acc Hin Hne Hminor; [destruct Hin|].
  cbn [fold_left]. destruct Hin as [->|Hin].
  - apply recorded_fold_keep. now apply recorded_compare_field_hit.
  - now apply IH.
Qed.

(** C7. For the [address] field, when the observed value has exactly one
    normalized word more than the reference value, no discrepancy is
    recorded for it; so "C-789, Satellite" against "C-789, Satellite Area"
    records none.  The rule is for [address] only: every other compared
    field is recorded whenever neither normalized value occurs in the
    other, whatever the word counts; so the pair that passes under
    [address] is recorded under [city]. *)
Theorem address_one_more_word_no_discrepancy :
  (forall state : AgentState,
      PyStr.len (PyStr.split (normalize (get_field (scraped_data state) "address")))
      = PyStr.len (PyStr.split (normalize (get_field (current_db_data state) "address"))) + 1 ->
      recorded "address" (discrepancies (quality_assurance_node state)) = false)
  /\ recorded "address"
       (discrepancies (quality_assurance_node
          (qa_state (single "address" "C-789, Satellite")
                    (single "address" "C-789, Satellite Area") None)))
     = false
  /\ recorded "address"
       (discrepancies (quality_assurance_node
          (qa_state (single "address" "12 Park Road")
                    (single "address" "14 Lake View Street") None)))
     = false
  /\ recorded "city"
       (discrepancies (quality_assurance_node
          (qa_state (single "city" "12 Park Road")
                    (single "city" "14 Lake View Street") None)))
     = true
  /\ (forall (state : AgentState) (f : string),
        In f fields_to_compare ->
        f <> "address" ->
        PyStr.isin (normalize (get_field (current_db_data state) f))
                   (normalize (get_field (scraped_data state) f)) = false ->
        PyStr.isin (normalize (get_field (scraped_data state) f))
                   (normalize (get_field (current_db_data state) f)) = false ->
        recorded f (discrepancies (quality_assurance_node state)) = true).
Proof.
  assert (Hgen : forall state : AgentState,
      PyStr.len (PyStr.split (normalize (get_field (scraped_data state) "address")))
      = PyStr.len (PyStr.split (normalize (get_field (current_db_data state) "address"))) + 1 ->
      recorded "address" (discrepancies (quality_assurance_node state)) = false).
  { intros state Hwords. rewrite qa_discrepancies. apply not_recorded. intros H.
    apply recorded_find_discrepancies in H as [_ Hminor].
    unfold is_minor_variation in Hminor.
    apply orb_false_iff in Hminor as [_ Hminor].
    rewrite Hwords in Hminor. cbn [String.eqb Ascii.eqb Bool.eqb andb] in Hminor.
    apply Z.eqb_neq in Hminor. lia. }
  split; [exact Hgen|].
  split; [apply Hgen; vm_compute; reflexivity|].
  split; [apply Hgen; vm_compute; reflexivity|].
  split; [vm_compute; reflexivity|].
  intros state f Hin Hf Hab Hba. rewrite qa_discrepancies.
  unfold find_discrepancies. apply recorded_fold_hit; [exact Hin| |].
  - intros Heq. rewrite Heq, isin_refl in Hab. discriminate Hab.
  - unfold is_minor_variation. rewrite Hab, Hba.
    apply String.eqb_neq in Hf. rewrite Hf. reflexivity.
Qed.

Lemma address_one_more_word_no_discrepancy_witness :
  (PyStr.len (PyStr.split (normalize (get_field (scraped_data (table_state 1003 None)) "address")))
   = PyStr.len (PyStr.split (normalize (get_field (current_db_data (table_state 1003 None)) "address"))) + 1
   /\ recorded "address" (discrepancies (quality_assurance_node (table_state 1003 None))) = false)
  /\ (In "name" fields_to_compare
      /\ "name" <> "address"
      /\ PyStr.len (PyStr.split (normalize (get_field
           (scraped_data (qa_state (single "name" "Dr. Amit Patel") (single "name" "Dr. Amit K. Shah") None))
           "name")))
         = PyStr.len (PyStr.split (normalize (get_field
             (current_db_data (qa_state (single "name" "Dr. Amit Patel") (single "name" "Dr. Amit K. Shah") None))
             "name"))) + 1
      /\ recorded "name"
           (discrepancies (quality_assurance_node
              (qa_state (single "name" "Dr. Amit Patel") (single "name" "Dr. Amit K. Shah") None)))
         = true).
Proof.
  split; split.
  - vm_compute. reflexivity.
  - apply (proj1 address_one_more_word_no_discrepancy). vm_compute. reflexivity.
  - cbn. tauto.
  - split; [discriminate|]. split; [vm_compute; reflexivity|].
    apply (proj2 (proj2 (proj2 (proj2 address_one_more_word_no_discrepancy)))).
    + cbn. tauto.
    + discriminate.
    + vm_compute. reflexivity.
    + vm_compute. reflexivity.
Defined.

(** C10. For every field, if either record lacks the field or holds a value
    that normalizes to the empty string, no discrepancy is recorded for that
    field, whatever the other record holds: the empty string occurs in
    every string. *)
Theorem missing_or_empty_no_discrepancy (state : AgentState) (f : string) :
  current_db_data state !! f = None
  \/ normalize (get_field (current_db_data state) f) = ""
  \/ scraped_data state !! f = None
  \/ normalize (get_field (scraped_data state) f) = "" ->
  recorded f (discrepancies (quality_assurance_node state)) = false.
Proof.
  intros H. apply substring_sides. 
  destruct H as [H|[H|[H|H]]].
  - left. rewrite (get_field_missing _ _ H), normalize_empty. apply isin_empty.
  - left. rewrite H. apply isin_empty.
  - right. rewrite (get_field_missing _ _ H), normalize_empty. apply isin_empty.
  - right. rewrite H. apply isin_empty.
Qed.

Lemma missing_or_empty_no_discrepancy_witness :
  (current_db_data (qa_state ∅ (single "phone" "+91-11-2658-3457") None) !! "phone" = None
   /\ recorded "phone"
        (discrepancies (quality_assurance_node
           (qa_state ∅ (single "phone" "+91-11-2658-3457") None)))
      = false)
  /\ (normalize (get_field (scraped_data (qa_state (single "zip" "110016") (single "zip" "   ") None)) "zip") = ""
      /\ recorded "zip"
           (discrepancies (quality_assurance_node
              (qa_state (single "zip" "110016") (single "zip" "   ") None)))
         = false).
Proof.
  split; split.
  - vm_compute. reflexivity.
  - apply missing_or_empty_no_discrepancy. left. vm_compute. reflexivity.
  - vm_compute. reflexivity.
  - apply missing_or_empty_no_discrepancy. right. right. right. vm_compute. reflexivity.
Defined.

(** ** Routing *)

Lemma should_update_db_spec (state : AgentState) :
  should_update_db state = update_db <-> confidence_score state > 80.
Proof.
  unfold should_update_db.
  destruct (Z.gtb_spec (confidence_score state) 80) as [Hgt|Hle]; split; intros Hr;
    try reflexivity; try discriminate Hr; lia.
Qed.

Lemma route_status (state : AgentState) :
  status (route state)
  = match should_update_db state with update_db => verified | flag_review => flagged end.
Proof. unfold route. now destruct (should_update_db state). Qed.

(** C1. The routing is a total function of the confidence score alone: for
    every state the outcome is verified exactly when the confidence is above
    80 and flagged otherwise; 81 is verified, 80 and 0 are flagged. *)
Theorem route_by_confidence (state : AgentState) :
  (status (route state) = verified <-> confidence_score state > 80)
  /\ (status (route state) = flagged <-> confidence_score state <= 80)
  /\ status (route (state_with_confidence 81)) = verified
  /\ status (route (state_with_confidence 80)) = flagged
  /\ status (route (state_with_confidence 0)) = flagged.
Proof.
  rewrite route_status.
  pose proof (should_update_db_spec state) as Hspec.
  destruct (should_update_db state).
  - assert (confidence_score state > 80) as Hgt by now apply Hspec.
    repeat split; intros; try reflexivity; try discriminate; lia.
  - assert (~ confidence_score state > 80) as Hle by (intros Hgt; apply Hspec in Hgt; discriminate Hgt).
    repeat split; intros; try reflexivity; try discriminate; lia.
Qed.

(** ** The confidence score *)

Lemma len_nonneg {A} (l : list A) : 0 <= PyStr.len l.
Proof. unfold PyStr.len. lia. Qed.

(** C2. With a baseline [b] in the state, the confidence is [b] less 5 per
    recorded discrepancy, floored at 0: [max 0 (b - 5 n)] for [n] recorded
    discrepancies, and [b] itself when there is none. *)
Theorem baseline_confidence (state : AgentState) (b : Z) :
  _expected_confidence state = Some b ->
  let result := quality_assurance_node state in
  let n := PyStr.len (discrepancies result) in
  (n = 0 -> confidence_score result = b)
  /\ (n > 0 -> confidence_score result = Z.max 0 (b - 5 * n))
  /\ (0 <= b -> confidence_score result = Z.max 0 (b - 5 * n)).
Proof.
  intros Hb result n. subst result n.
  rewrite qa_confidence, qa_discrepancies, Hb. unfold score.
  pose proof (len_nonneg (find_discrepancies (current_db_data state) (scraped_data state))).
  destruct (Z.gtb_spec (PyStr.len (find_discrepancies (current_db_data state) (scraped_data state))) 0);
    repeat split; intros; lia.
Qed.

Lemma baseline_confidence_witness :
  _expected_confidence (table_state 3001 (Some 65)) = Some 65
  /\ PyStr.len (discrepancies (quality_assurance_node (table_state 3001 (Some 65)))) = 2
  /\ confidence_score (quality_assurance_node (table_state 3001 (Some 65))) = 55.
Proof.
  split; [reflexivity|]. split; [vm_compute; reflexivity|].
  rewrite (proj1 (proj2 (baseline_confidence (table_state 3001 (Some 65)) 65 eq_refl)));
    vm_compute; reflexivity.
Defined.

Lemma identical_records (r : gmap string pyval) : find_discrepancies r r = [].
Proof.
  unfold find_discrepancies.
  assert (H : forall l acc, fold_left (compare_field r r) l acc = acc).
  { induction l as [|g l IH]; intros acc; cbn [fold_left]; [reflexivity|].
    rewrite IH. unfold compare_field. now rewrite String.eqb_refl. }
  apply H.
Qed.

(** C3. Without a baseline the confidence depends on the number [n] of
    recorded discrepancies alone: 95 for none, 75 for one, and
    [max 0 (100 - 20 n)] from two on.  So a single phone discrepancy gives 75
    and the outcome flagged, and identical records give 95 and the outcome
    verified. *)
Theorem fallback_confidence :
  (forall state : AgentState,
      _expected_confidence state = None ->
      let result := quality_assurance_node state in
      let n := PyStr.len (discrepancies result) in
      (n = 0 -> confidence_score result = 95)
      /\ (n = 1 -> confidence_score result = 75)
      /\ (n >= 2 -> confidence_score result = Z.max 0 (100 - 20 * n)))
  /\ (let result :=
        quality_assurance_node
          (qa_state (single "phone" "+91-11-2658-3456")
                    (single "phone" "+91-11-2658-3457") None) in
      PyStr.len (discrepancies result) = 1
      /\ recorded "phone" (discrepancies result) = true
      /\ confidence_score result = 75
      /\ status (route result) = flagged)
  /\ (forall r : gmap string pyval,
        let result := quality_assurance_node (qa_state r r None) in
        PyStr.len (discrepancies result) = 0
        /\ confidence_score result = 95
        /\ status (route result) = verified).
Proof.
  split; [|split].
  - intros state Hnone result n. subst result n.
    rewrite qa_confidence, qa_discrepancies, Hnone. unfold score.
    destruct (Z.eqb_spec (PyStr.len (find_discrepancies (current_db_data state) (scraped_data state))) 0);
      [repeat split; intros; lia|].
    destruct (Z.eqb_spec (PyStr.len (find_discrepancies (current_db_data state) (scraped_data state))) 1);
      repeat split; intros; lia.
  - vm_compute. repeat split; reflexivity.
  - intros r result. subst result.
    rewrite route_status. unfold should_update_db.
    rewrite qa_confidence, qa_discrepancies. cbn [qa_state current_db_data scraped_data _expected_confidence].
    rewrite identical_records. repeat split; reflexivity.
Qed.

Lemma fallback_confidence_witness :
  _expected_confidence (table_state 3001 None) = None
  /\ PyStr.len (discrepancies (quality_assurance_node (table_state 3001 None))) >= 2
  /\ confidence_score (quality_assurance_node (table_state 3001 None)) = 60.
Proof.
  split; [reflexivity|]. split; [vm_compute; discriminate|].
  rewrite (proj2 (proj2 (proj1 fallback_confidence (table_state 3001 None) eq_refl)));
    [vm_compute; reflexivity | vm_compute; discriminate].
Defined.

(** C4, as the claim has it, fails: with no recorded discrepancy the baseline
    is returned as it is, above 100 or below 0. *)
Lemma confidence_not_clamped :
  ~ (0 <= confidence_score (quality_assurance_node (qa_state ∅ ∅ (Some 150))) <= 100)
  /\ ~ (0 <= confidence_score (quality_assurance_node (qa_state ∅ ∅ (Some (-5)))) <= 100).
Proof.
  split; vm_compute.
  - intros [_ H]. now apply H.
  - intros [H _]. now apply H.
Qed.

(** C4, amended. For every pair of records, when no baseline is supplied or
    the supplied baseline lies in [0, 100], the confidence lies in
    [0, 100]. *)
Theorem confidence_in_range (state : AgentState) :
  match _expected_confidence state with
  | Some b => 0 <= b <= 100
  | None => True
  end ->
  0 <= confidence_score (quality_assurance_node state) <= 100.
Proof.
  rewrite qa_confidence. unfold score.
  pose proof (len_nonneg (find_discrepancies (current_db_data state) (scraped_data state))) as Hlen.
  destruct (_expected_confidence state) as [b|]; intros Hb.
  - destruct (Z.gtb_spec (PyStr.len (find_discrepancies (current_db_data state) (scraped_data state))) 0); lia.
  - destruct (Z.eqb_spec (PyStr.len (find_discrepancies (current_db_data state) (scraped_data state))) 0); [lia|].
    destruct (Z.eqb_spec (PyStr.len (find_discrepancies (current_db_data state) (scraped_data state))) 1); lia.
Qed.

Lemma confidence_in_range_witness :
  0 <= 65 <= 100
  /\ 0 <= confidence_score (quality_assurance_node (table_state 3001 (Some 65))) <= 100.
Proof.
  split; [lia|]. apply (confidence_in_range (table_state 3001 (Some 65))). cbn. lia.
Defined.

(** ** The graph run *)

Lemma fetch_stores_baseline (state : AgentState) :
  _expected_confidence (fetch_provider_node state)
  = Some (match providers !! provider_id state with
          | Some e => default 75 (entry_confidence e)
          | None => 75
          end).
Proof.
  unfold fetch_provider_node, get_mock_provider_data. cbn [_expected_confidence].
  now destruct (providers !! provider_id state).
Qed.

(** With every key kept between the nodes, the comparison node finds the
    baseline the fetch node stored. *)
Lemma threaded_qa_has_baseline (state : AgentState) :
  _expected_confidence (qa_input id state)
  = _expected_confidence (fetch_provider_node state).
Proof. reflexivity. Qed.

(** With the declared keys only, it never does. *)
Lemma invoke_qa_has_no_baseline (state : AgentState) :
  _expected_confidence (qa_input declared_keys state) = None.
Proof. reflexivity. Qed.

Lemma run_graph_provider_id (carry : AgentState -> AgentState) (state : AgentState) :
  (forall s, provider_id (carry s) = provider_id s) ->
  provider_id (snd (run_graph carry state)) = provider_id state.
Proof.
  intros Hcarry. unfold run_graph. cbn [snd]. rewrite Hcarry.
  destruct (should_update_db _); cbn [route_node];
    unfold update_db_node, flag_review_node, set_status; cbn [provider_id];
    rewrite Hcarry; cbn [quality_assurance_node provider_id];
    rewrite Hcarry; cbn [scrape_web_node provider_id];
    rewrite Hcarry; cbn [fetch_provider_node provider_id];
    now rewrite Hcarry.
Qed.

Lemma run_graph_trace (carry : AgentState -> AgentState) (state : AgentState) :
  exists r : Route,
    fst (run_graph carry state)
    = [ "fetch_provider"; "scrape_web"; "quality_assurance"; route_name r ].
Proof. unfold run_graph. eexists. reflexivity. Qed.

Lemma run_graph_routed (carry : AgentState -> AgentState) (state : AgentState) :
  fst (run_graph carry state)
  = [ "fetch_provider"; "scrape_web"; "quality_assurance";
      route_name (should_update_db
                    (carry (quality_assurance_node (qa_input carry state)))) ].
Proof. reflexivity. Qed.

(** C8. A request whose identifier is zero or negative is answered with the
    400 error, without the state being built and without any node being
    run.  For a positive identifier the state is built and the graph is
    invoked on it: the events are the building of the state followed by the
    nodes [invoke] runs on the initial state of that identifier (fetch,
    scrape, comparison and the node the conditional edge selects on the
    comparison's result), and the response carries the fields of the state
    that run ends with. *)
Theorem nonpositive_id_rejected_before_run (request_provider_id : Z) :
  (request_provider_id <= 0 ->
     validate_provider request_provider_id
     = ([], inl (mkHTTPException 400 "Provider ID must be a positive integer")))
  /\ (0 < request_provider_id ->
      exists (r : Route) (response : WorkflowResponse),
        validate_provider request_provider_id
        = ( [ state_built; node_ran "fetch_provider"; node_ran "scrape_web";
              node_ran "quality_assurance"; node_ran (route_name r) ],
            inr response )
        /\ success response = true
        /\ response_provider_id response = request_provider_id
        /\ validate_provider request_provider_id
           = ( state_built
                 :: map node_ran (fst (invoke (initial_state request_provider_id))),
               inr response )
        /\ r = should_update_db
                 (declared_keys
                    (quality_assurance_node
                       (qa_input declared_keys (initial_state request_provider_id))))
        /\ response_provider_id response
           = provider_id (snd (invoke (initial_state request_provider_id)))
        /\ response_status response
           = status (snd (invoke (initial_state request_provider_id)))
        /\ response_confidence_score response
           = confidence_score (snd (invoke (initial_state request_provider_id)))
        /\ response_current_db_data response
           = current_db_data (snd (invoke (initial_state request_provider_id)))
        /\ response_scraped_data response
           = scraped_data (snd (invoke (initial_state request_provider_id)))
        /\ response_discrepancies response
           = discrepancies (snd (invoke (initial_state request_provider_id)))).
Proof.
  split; intros Hid; unfold validate_provider.
  - destruct (Z.leb_spec request_provider_id 0); [reflexivity|lia].
  - destruct (Z.leb_spec request_provider_id 0); [lia|].
    pose proof (run_graph_provider_id declared_keys (initial_state request_provider_id)
                  (fun s => eq_refl)) as Hpid.
    pose proof (run_graph_routed declared_keys (initial_state request_provider_id))
      as Htrace.
    fold invoke in Hpid, Htrace.
    exists (should_update_db
              (declared_keys
                 (quality_assurance_node
                    (qa_input declared_keys (initial_state request_provider_id))))).
    destruct (invoke (initial_state request_provider_id)) as [ran final_state].
    cbn [fst snd] in Hpid, Htrace. cbn [fst snd]. subst ran.
    eexists.
    split; [reflexivity|]. split; [reflexivity|]. split; [exact Hpid|].
    split; [reflexivity|]. split; [reflexivity|].
    repeat split; reflexivity.
Qed.

Lemma nonpositive_id_rejected_before_run_witness :
  (-3 <= 0
   /\ validate_provider (-3)
      = ([], inl (mkHTTPException 400 "Provider ID must be a positive integer")))
  /\ (0 < 2001
      /\ exists (r : Route) (response : WorkflowResponse),
          validate_provider 2001
          = ( [ state_built; node_ran "fetch_provider"; node_ran "scrape_web";
                node_ran "quality_assurance"; node_ran (route_name r) ],
              inr response )
          /\ success response = true
          /\ response_provider_id response = 2001
          /\ validate_provider 2001
             = (state_built :: map node_ran (fst (invoke (initial_state 2001))),
                inr response)
          /\ response_status response = status (snd (invoke (initial_state 2001)))
          /\ response_confidence_score response
             = confidence_score (snd (invoke (initial_state 2001)))
          /\ response_discrepancies response
             = discrepancies (snd (invoke (initial_state 2001)))).
Proof.
  split; split.
  - lia.
  - apply (proj1 (nonpositive_id_rejected_before_run (-3))). lia.
  - lia.
  - destruct (proj2 (nonpositive_id_rejected_before_run 2001) ltac:(lia))
      as (r & response & H1 & H2 & H3 & H4 & _ & _ & H7 & H8 & _ & _ & H11).
    exists r, response. repeat split; assumption.
Defined.

(** C9, on the code. The fetch node stores a baseline in the dict it returns
    for every identifier, 85 for provider 1001, but [_expected_confidence] is not a key of
    [AgentState], so the dict the comparison node is called on during
    [invoke] does not hold it, for any initial state: the run of provider
    1001 ends with the count-only score 95, not with 85, and provider 2002,
    listed under "will be flagged" with 75, ends verified with 95. *)
Theorem baseline_lost_between_nodes :
  (forall state : AgentState,
      exists b : Z, _expected_confidence (fetch_provider_node state) = Some b)
  /\ _expected_confidence (fetch_provider_node (initial_state 1001)) = Some 85
  /\ (forall state : AgentState,
        _expected_confidence (qa_input declared_keys state) = None)
  /\ confidence_score (snd (invoke (initial_state 1001))) = 95
  /\ confidence_score (snd (invoke_threaded (initial_state 1001))) = 85
  /\ (confidence_score (snd (invoke (initial_state 2002))) = 95
      /\ status (snd (invoke (initial_state 2002))) = verified)
  /\ (confidence_score (snd (invoke_threaded (initial_state 2002))) = 75
      /\ status (snd (invoke_threaded (initial_state 2002))) = flagged).
Proof.
  split; [intros state; eexists; apply fetch_stores_baseline|].
  split; [vm_compute; reflexivity|].
  split; [exact invoke_qa_has_no_baseline|].
  repeat split; vm_compute; reflexivity.
Qed.

(** * Further properties of the code *)

(** ** The comparison loop as a filter *)

(** The entry the loop appends for a field. *)
Lemma compare_field_app db sc acc f :
  compare_field db sc acc f
  = (acc ++ (if is_discrepancy db sc f
             then [ {| field := f;
                       db_value := py_str (get_field db f);
                       scraped_value := py_str (get_field sc f) |} ]
             else []))%list.
Proof.
  unfold compare_field, is_discrepancy.
  destruct (String.eqb _ _); cbn [negb andb]; [now rewrite app_nil_r|].
  destruct (is_minor_variation _ _ _); cbn [negb]; [now rewrite app_nil_r|reflexivity].
Qed.

Lemma fold_compare_field db sc (l : list string) :
  forall acc,
    fold_left (compare_field db sc) l acc
    = (acc ++ map (fun f => {| field := f;
                               db_value := py_str (get_field db f);
                               scraped_value := py_str (get_field sc f) |})
                  (List.filter (is_discrepancy db sc) l))%list.
Proof.
  induction l as [|f l IH]; intros acc; cbn [fold_left List.filter].
  - now rewrite app_nil_r.
  - rewrite IH, compare_field_app.
    destruct (is_discrepancy db sc f); cbn [map].
    + now rewrite <- app_assoc.
    + now rewrite app_nil_r.
Qed.

Lemma find_discrepancies_filter db sc :
  find_discrepancies db sc
  = map (fun f => {| field := f;
                     db_value := py_str (get_field db f);
                     scraped_value := py_str (get_field sc f) |})
        (List.filter (is_discrepancy db sc) fields_to_compare).
Proof. unfold find_discrepancies. now rewrite fold_compare_field. Qed.

Lemma discrepancy_fields db sc :
  map field (find_discrepancies db sc)
  = List.filter (is_discrepancy db sc) fields_to_compare.
Proof.
  rewrite find_discrepancies_filter, map_map. cbn [field]. apply map_id.
Qed.

Lemma fields_to_compare_NoDup : List.NoDup fields_to_compare.
Proof.
  unfold fields_to_compare.
  repeat (apply List.NoDup_cons; [cbn; intuition discriminate|]).
  apply List.NoDup_nil.
Qed.

(** X1. The comparison records at most one entry per compared field, in the
    order of [fields_to_compare]: the recorded fields are the compared
    fields that pass the loop's test, so there are at most nine entries and
    no field appears twice. *)
Theorem discrepancies_ordered_distinct (state : AgentState) :
  let ds := discrepancies (quality_assurance_node state) in
  map field ds
  = List.filter (is_discrepancy (current_db_data state) (scraped_data state))
      fields_to_compare
  /\ List.NoDup (map field ds)
  /\ PyStr.len ds <= 9
  /\ (forall d, In d ds -> In (field d) fields_to_compare).
Proof.
  intros ds. subst ds. rewrite qa_discrepancies.
  pose proof (discrepancy_fields (current_db_data state) (scraped_data state)) as Hf.
  split; [exact Hf|]. split; [|split].
  - rewrite Hf. apply List.NoDup_filter, fields_to_compare_NoDup.
  - unfold PyStr.len. rewrite <- (length_map field), Hf.
    pose proof (List.filter_length_le
                  (is_discrepancy (current_db_data state) (scraped_data state))
                  fields_to_compare) as Hle.
    change (List.length fields_to_compare) with 9%nat in Hle. lia.
  - intros d Hd. apply (in_map field) in Hd. rewrite Hf in Hd.
    exact (proj1 (proj1 (List.filter_In _ _ _) Hd)).
Qed.

Lemma recorded_In (f : string) (ds : list Discrepancy) :
  recorded f ds = true <-> In f (map field ds).
Proof.
  unfold recorded. rewrite existsb_exists, in_map_iff.
  split; intros (d & H1 & H2).
  - exists d. apply String.eqb_eq in H2. now split.
  - exists d. split; [exact H2|]. now apply String.eqb_eq.
Qed.

(** When the loop records a field. *)
Lemma recorded_criterion (state : AgentState) (f : string) :
  recorded f (discrepancies (quality_assurance_node state)) = true
  <-> In f fields_to_compare
      /\ normalize (get_field (current_db_data state) f)
         <> normalize (get_field (scraped_data state) f)
      /\ is_minor_variation f
           (normalize (get_field (current_db_data state) f))
           (normalize (get_field (scraped_data state) f)) = false.
Proof.
  rewrite recorded_In, qa_discrepancies, discrepancy_fields, List.filter_In.
  unfold is_discrepancy. rewrite andb_true_iff, !negb_true_iff, String.eqb_neq.
  tauto.
Qed.

(** X2. A field has an entry in the result exactly when it is one of the
    compared fields, its normalized values differ, and the difference is no
    minor variation. *)
Theorem recorded_iff (state : AgentState) (f : string) :
  recorded f (discrepancies (quality_assurance_node state)) = true
  <-> In f fields_to_compare
      /\ normalize (get_field (current_db_data state) f)
         <> normalize (get_field (scraped_data state) f)
      /\ is_minor_variation f
           (normalize (get_field (current_db_data state) f))
           (normalize (get_field (scraped_data state) f)) = false.
Proof. apply recorded_criterion. Qed.

(** X3. Every entry carries the values of its field as the two records hold
    them, coerced to strings but not normalized, reading a missing field as
    the empty string. *)
Theorem entries_carry_original_values (state : AgentState) (d : Discrepancy) :
  In d (discrepancies (quality_assurance_node state)) ->
  db_value d = py_str (get_field (current_db_data state) (field d))
  /\ scraped_value d = py_str (get_field (scraped_data state) (field d)).
Proof.
  rewrite qa_discrepancies, find_discrepancies_filter, in_map_iff.
  intros (f & <- & _). split; reflexivity.
Qed.

Lemma entries_carry_original_values_witness :
  In {| field := "phone"; db_value := " +91-40-2789-4567"; scraped_value := "+91-40-2789-4568 " |}
     (discrepancies (quality_assurance_node
        (qa_state (single "phone" " +91-40-2789-4567") (single "phone" "+91-40-2789-4568 ") None)))
  /\ " +91-40-2789-4567"
     = py_str (get_field (single "phone" " +91-40-2789-4567") "phone").
Proof.
  assert (Hin : In {| field := "phone"; db_value := " +91-40-2789-4567"; scraped_value := "+91-40-2789-4568 " |}
     (discrepancies (quality_assurance_node
        (qa_state (single "phone" " +91-40-2789-4567") (single "phone" "+91-40-2789-4568 ") None)))).
  { vm_compute. left. reflexivity. }
  split; [exact Hin|].
  exact (proj1 (entries_carry_original_values _ _ Hin)).
Defined.

(** ** The score and the route it leads to *)

Lemma score_none (ds : list Discrepancy) :
  score None ds
  = if PyStr.len ds =? 0 then 95
    else if PyStr.len ds =? 1 then 75
    else Z.max 0 (100 - PyStr.len ds * 20).
Proof. reflexivity. Qed.

Lemma score_some (b : Z) (ds : list Discrepancy) :
  score (Some b) ds
  = if PyStr.len ds >? 0 then Z.max 0 (b - PyStr.len ds * 5) else b.
Proof. reflexivity. Qed.

Lemma len_zero_nil {A} (l : list A) : PyStr.len l = 0 <-> l = [].
Proof. unfold PyStr.len. destruct l; cbn; split; intros H; try reflexivity; try discriminate; lia. Qed.

Lemma route_verified_iff (state : AgentState) :
  status (route state) = verified <-> confidence_score state > 80.
Proof.
  rewrite route_status. pose proof (should_update_db_spec state) as Hspec.
  destruct (should_update_db state).
  - split; [intros _; now apply Hspec | reflexivity].
  - split; [discriminate | intros H; apply Hspec in H; discriminate H].
Qed.

Lemma score_range (expected : option Z) (ds : list Discrepancy) :
  match expected with Some b => 0 <= b <= 100 | None => True end ->
  0 <= score expected ds <= 100.
Proof.
  pose proof (len_nonneg ds) as Hlen.
  destruct expected as [b|]; intros Hb.
  - rewrite score_some. destruct (Z.gtb_spec (PyStr.len ds) 0); lia.
  - rewrite score_none.
    destruct (Z.eqb_spec (PyStr.len ds) 0); [lia|].
    destruct (Z.eqb_spec (PyStr.len ds) 1); lia.
Qed.

(** X4. Without a baseline, the routed outcome is verified exactly when the
    comparison records no discrepancy: one recorded field is enough to flag
    the record. *)
Theorem fallback_verified_iff_clean (state : AgentState) :
  _expected_confidence state = None ->
  status (route (quality_assurance_node state)) = verified
  <-> discrepancies (quality_assurance_node state) = [].
Proof.
  intros Hnone. rewrite route_verified_iff, qa_confidence, Hnone, score_none.
  rewrite qa_discrepancies, <- len_zero_nil.
  pose proof (len_nonneg (find_discrepancies (current_db_data state) (scraped_data state))) as Hlen.
  destruct (Z.eqb_spec (PyStr.len (find_discrepancies (current_db_data state) (scraped_data state))) 0);
    [lia|].
  destruct (Z.eqb_spec (PyStr.len (find_discrepancies (current_db_data state) (scraped_data state))) 1);
    lia.
Qed.

Lemma fallback_verified_iff_clean_witness :
  _expected_confidence (table_state 2002 None) = None
  /\ discrepancies (quality_assurance_node (table_state 2002 None)) = []
  /\ status (route (quality_assurance_node (table_state 2002 None))) = verified.
Proof.
  split; [reflexivity|].
  assert (Hnil : discrepancies (quality_assurance_node (table_state 2002 None)) = [])
    by (vm_compute; reflexivity).
  split; [exact Hnil|].
  exact (proj2 (fallback_verified_iff_clean (table_state 2002 None) eq_refl) Hnil).
Defined.

(** X5. With a baseline [b], the routed outcome is verified exactly when
    [b] less 5 per recorded discrepancy is still above 80; so a baseline of
    85 or less is flagged by a single discrepancy, and a baseline of 80 or
    less is never verified. *)
Theorem baseline_verified_iff (state : AgentState) (b : Z) :
  _expected_confidence state = Some b ->
  status (route (quality_assurance_node state)) = verified
  <-> b - 5 * PyStr.len (discrepancies (quality_assurance_node state)) > 80.
Proof.
  intros Hb. rewrite route_verified_iff, qa_confidence, Hb, score_some, qa_discrepancies.
  pose proof (len_nonneg (find_discrepancies (current_db_data state) (scraped_data state))) as Hlen.
  destruct (Z.gtb_spec (PyStr.len (find_discrepancies (current_db_data state) (scraped_data state))) 0);
    lia.
Qed.

Lemma baseline_verified_iff_witness :
  _expected_confidence (table_state 2001 (Some 85)) = Some 85
  /\ ~ (85 - 5 * PyStr.len (discrepancies (quality_assurance_node (table_state 2001 (Some 85)))) > 80)
  /\ status (route (quality_assurance_node (table_state 2001 (Some 85)))) <> verified.
Proof.
  split; [reflexivity|].
  assert (Hn : ~ (85 - 5 * PyStr.len (discrepancies (quality_assurance_node (table_state 2001 (Some 85)))) > 80))
    by (vm_compute; intros H; discriminate H).
  split; [exact Hn|].
  intros Hv. apply Hn.
  exact (proj1 (baseline_verified_iff (table_state 2001 (Some 85)) 85 eq_refl) Hv).
Defined.

(** X6. Finding more discrepancies never raises the confidence: of two
    comparisons under the same baseline, absent or not negative, the one
    that records at least as many discrepancies scores at most as high. *)
Theorem more_discrepancies_lower_score (s1 s2 : AgentState) :
  _expected_confidence s1 = _expected_confidence s2 ->
  match _expected_confidence s1 with Some b => 0 <= b | None => True end ->
  PyStr.len (discrepancies (quality_assurance_node s1))
  <= PyStr.len (discrepancies (quality_assurance_node s2)) ->
  confidence_score (quality_assurance_node s2)
  <= confidence_score (quality_assurance_node s1).
Proof.
  intros Hsame Hb. rewrite !qa_confidence, !qa_discrepancies, <- Hsame.
  pose proof (len_nonneg (find_discrepancies (current_db_data s1) (scraped_data s1))) as H1.
  pose proof (len_nonneg (find_discrepancies (current_db_data s2) (scraped_data s2))) as H2.
  destruct (_expected_confidence s1) as [b|]; intros Hle.
  - rewrite !score_some.
    destruct (Z.gtb_spec (PyStr.len (find_discrepancies (current_db_data s1) (scraped_data s1))) 0);
    destruct (Z.gtb_spec (PyStr.len (find_discrepancies (current_db_data s2) (scraped_data s2))) 0);
      lia.
  - rewrite !score_none.
    destruct (Z.eqb_spec (PyStr.len (find_discrepancies (current_db_data s1) (scraped_data s1))) 0);
    destruct (Z.eqb_spec (PyStr.len (find_discrepancies (current_db_data s2) (scraped_data s2))) 0);
    destruct (Z.eqb_spec (PyStr.len (find_discrepancies (current_db_data s1) (scraped_data s1))) 1);
    destruct (Z.eqb_spec (PyStr.len (find_discrepancies (current_db_data s2) (scraped_data s2))) 1);
      lia.
Qed.

Lemma more_discrepancies_lower_score_witness :
  confidence_score (quality_assurance_node (table_state 3001 (Some 65)))
  <= confidence_score (quality_assurance_node (table_state 2001 (Some 65))).
Proof.
  apply (more_discrepancies_lower_score (table_state 2001 (Some 65)) (table_state 3001 (Some 65))).
  - reflexivity.
  - cbn. lia.
  - vm_compute. intros H; discriminate H.
Defined.

(** X7. Without a baseline the confidence takes one of six values, 95, 75,
    60, 40, 20 or 0, and it is 0 exactly from five recorded discrepancies
    on. *)
Theorem fallback_score_values (state : AgentState) :
  _expected_confidence state = None ->
  In (confidence_score (quality_assurance_node state)) [95; 75; 60; 40; 20; 0]
  /\ (confidence_score (quality_assurance_node state) = 0
      <-> PyStr.len (discrepancies (quality_assurance_node state)) >= 5).
Proof.
  intros Hnone. rewrite qa_confidence, Hnone, score_none, qa_discrepancies.
  pose proof (len_nonneg (find_discrepancies (current_db_data state) (scraped_data state))) as Hlen.
  set (n := PyStr.len (find_discrepancies (current_db_data state) (scraped_data state))) in *.
  destruct (Z.eqb_spec n 0); [split; [cbn; tauto | lia]|].
  destruct (Z.eqb_spec n 1); [split; [cbn; tauto | lia]|].
  split; [|lia].
  assert (Hcases : n = 2 \/ n = 3 \/ n = 4 \/ n >= 5) by lia.
  destruct Hcases as [->|[->|[->|Hge]]]; cbn; try tauto.
  rewrite Z.max_l by lia. tauto.
Qed.

Lemma fallback_score_values_witness :
  _expected_confidence (table_state 3001 None) = None
  /\ In (confidence_score (quality_assurance_node (table_state 3001 None))) [95; 75; 60; 40; 20; 0].
Proof.
  split; [reflexivity|].
  exact (proj1 (fallback_score_values (table_state 3001 None) eq_refl)).
Defined.

(** ** Which differences count *)

Lemma is_minor_variation_sym (f a b : string) :
  f <> "address" -> is_minor_variation f a b = is_minor_variation f b a.
Proof.
  intros Hf. unfold is_minor_variation.
  apply String.eqb_neq in Hf. rewrite Hf. cbn [andb].
  rewrite !orb_false_r. apply orb_comm.
Qed.

Lemma is_discrepancy_sym db sc (f : string) :
  f <> "address" -> is_discrepancy db sc f = is_discrepancy sc db f.
Proof.
  intros Hf. unfold is_discrepancy.
  rewrite (is_minor_variation_sym f _ _ Hf), (String.eqb_sym (normalize (get_field db f))).
  reflexivity.
Qed.

Lemma recorded_filter db sc (f : string) :
  recorded f (find_discrepancies db sc)
  = existsb (String.eqb f) (List.filter (is_discrepancy db sc) fields_to_compare).
Proof.
  rewrite find_discrepancies_filter. unfold recorded.
  induction (List.filter (is_discrepancy db sc) fields_to_compare) as [|g l IH];
    [reflexivity|].
  cbn [map existsb field]. now rewrite IH, (String.eqb_sym g f).
Qed.

Lemma existsb_filter_one (f : string) (p : string -> bool) (l : list string) :
  existsb (String.eqb f) (List.filter p l) = p f && existsb (String.eqb f) l.
Proof.
  induction l as [|g l IH]; cbn [List.filter existsb].
  - now rewrite andb_false_r.
  - destruct (String.eqb_spec f g) as [<-|Hne].
    + destruct (p f) eqn:Hp; cbn [existsb andb orb].
      * now rewrite String.eqb_refl.
      * exact IH.
    + cbn [orb]. destruct (p g); cbn [existsb]; [|exact IH].
      rewrite (proj2 (String.eqb_neq f g) Hne). exact IH.
Qed.

(** X8. Exchanging the two records does not change whether a field other
    than [address] is recorded; for [address] it can: the one-more-word rule
    looks at the observed record only. *)
Theorem comparison_symmetric_but_address :
  (forall (state : AgentState) (f : string),
      f <> "address" ->
      recorded f (discrepancies (quality_assurance_node (swap_records state)))
      = recorded f (discrepancies (quality_assurance_node state)))
  /\ recorded "address"
       (discrepancies (quality_assurance_node
          (qa_state (single "address" "12 Park Road")
                    (single "address" "14 Lake View Street") None)))
     = false
  /\ recorded "address"
       (discrepancies (quality_assurance_node
          (swap_records
             (qa_state (single "address" "12 Park Road")
                       (single "address" "14 Lake View Street") None))))
     = true.
Proof.
  split; [|split; vm_compute; reflexivity].
  intros state f Hf. rewrite !qa_discrepancies. cbn [swap_records current_db_data scraped_data].
  rewrite !recorded_filter, !existsb_filter_one.
  now rewrite (is_discrepancy_sym _ _ f Hf).
Qed.

Lemma comparison_symmetric_but_address_witness :
  "phone" <> "address"
  /\ recorded "phone" (discrepancies (quality_assurance_node (swap_records (table_state 2001 None))))
     = recorded "phone" (discrepancies (quality_assurance_node (table_state 2001 None))).
Proof.
  split; [discriminate|].
  apply (proj1 comparison_symmetric_but_address). discriminate.
Defined.

(** X9. For a compared field other than [address], no entry is recorded
    exactly when one normalized value is a contiguous part of the other
    (equal values included). *)
Theorem unrecorded_iff_contained (state : AgentState) (f : string) :
  In f fields_to_compare ->
  f <> "address" ->
  recorded f (discrepancies (quality_assurance_node state)) = false
  <-> (exists p q,
          normalize (get_field (scraped_data state) f)
          = p ++ normalize (get_field (current_db_data state) f) ++ q)
      \/ (exists p q,
             normalize (get_field (current_db_data state) f)
             = p ++ normalize (get_field (scraped_data state) f) ++ q).
Proof.
  intros Hin Hf.
  rewrite <- !isin_spec, <- not_true_iff_false, recorded_criterion.
  unfold is_minor_variation. apply String.eqb_neq in Hf. rewrite Hf.
  cbn [andb]. rewrite orb_false_r, orb_false_iff.
  set (a := normalize (get_field (current_db_data state) f)).
  set (b := normalize (get_field (scraped_data state) f)).
  split.
  - intros Hnot.
    destruct (PyStr.isin a b) eqn:Hab; [now left|].
    destruct (PyStr.isin b a) eqn:Hba; [now right|].
    exfalso. apply Hnot. split; [exact Hin|]. split; [|now split].
    intros Heq. rewrite Heq, isin_refl in Hab. discriminate Hab.
  - intros [H|H] (_ & _ & H1 & H2); congruence.
Qed.

Lemma unrecorded_iff_contained_witness :
  In "name" fields_to_compare
  /\ "name" <> "address"
  /\ recorded "name"
       (discrepancies (quality_assurance_node
          (qa_state (single "name" "Dr. Amit Patel") (single "name" "amit patel") None)))
     = false.
Proof.
  split; [cbn; tauto|]. split; [discriminate|].
  apply (proj2 (unrecorded_iff_contained
                  (qa_state (single "name" "Dr. Amit Patel") (single "name" "amit patel") None)
                  "name" ltac:(cbn; tauto) ltac:(discriminate))).
  right. exists "dr. ", "". vm_compute. reflexivity.
Defined.

(** ** The mock table *)

Lemma provider_record_fields (id : Z)
    (name specialty phone address city state zip license_number npi : string) :
  let r := provider_record id name specialty phone address city state zip
             license_number npi in
  r !! "id" = Some (PInt id)
  /\ Forall (fun f => exists v, r !! f = Some (PStr v)) fields_to_compare.
Proof.
  split; [reflexivity|].
  unfold fields_to_compare.
  repeat (constructor; [eexists; reflexivity|]). constructor.
Qed.

Ltac entry_facts :=
  split; [reflexivity|]; split; [reflexivity|];
  split; [eexists; split; [reflexivity|lia]|];
  unfold fields_to_compare;
  repeat (constructor;
          [do 2 eexists; split; [reflexivity|]; split; [reflexivity|];
           intros Hphone Haddress; first [reflexivity | congruence]|]);
  constructor.

(** The facts about the entry returned for an identifier. *)
Lemma mock_entry_facts (provider_id : Z) :
  let e := get_mock_provider_data provider_id in
  entry_db e !! "id" = Some (PInt provider_id)
  /\ entry_scraped e !! "id" = Some (PInt provider_id)
  /\ (exists b, entry_confidence e = Some b /\ 65 <= b <= 92)
  /\ Forall (fun f =>
               exists v w,
                 entry_db e !! f = Some (PStr v)
                 /\ entry_scraped e !! f = Some (PStr w)
                 /\ (f <> "phone" -> f <> "address" -> v = w))
            fields_to_compare.
Proof.
  unfold get_mock_provider_data.
  destruct (providers !! provider_id) as [e|] eqn:Hlookup; cbv zeta.
  - unfold providers in Hlookup. apply elem_of_list_to_map_2 in Hlookup.
    repeat (apply elem_of_cons in Hlookup as [Hlookup|Hlookup];
            [injection Hlookup as -> ->; entry_facts|]).
    now apply elem_of_nil in Hlookup.
  - unfold default_provider. entry_facts.
Qed.

(** X10. Whatever the identifier, the entry the table function returns is
    complete: both records carry the requested identifier under ["id"],
    both hold all nine compared fields as strings, the entry has a
    confidence between 65 and 92, and the two records agree on every
    compared field but [phone] and [address]. *)
Theorem mock_entry_complete (provider_id : Z) :
  let e := get_mock_provider_data provider_id in
  entry_db e !! "id" = Some (PInt provider_id)
  /\ entry_scraped e !! "id" = Some (PInt provider_id)
  /\ (exists b, entry_confidence e = Some b /\ 65 <= b <= 92)
  /\ Forall (fun f =>
               exists v w,
                 entry_db e !! f = Some (PStr v)
                 /\ entry_scraped e !! f = Some (PStr w)
                 /\ (f <> "phone" -> f <> "address" -> v = w))
            fields_to_compare.
Proof. apply mock_entry_facts. Qed.

(** ** The graph run, in closed form *)

Ltac unfold_run :=
  cbv beta iota zeta delta
    [ invoke invoke_threaded run_graph declared_keys id fetch_provider_node
      scrape_web_node quality_assurance_node should_update_db route_node
      route_name update_db_node flag_review_node set_status
      provider_id current_db_data scraped_data discrepancies confidence_score
      status _expected_confidence ].

Lemma invoke_result (state : AgentState) :
  let e := get_mock_provider_data (provider_id state) in
  let ds := find_discrepancies (entry_db e) (entry_scraped e) in
  invoke state
  = ( [ "fetch_provider"; "scrape_web"; "quality_assurance";
        if score None ds >? 80 then "update_db" else "flag_review" ],
      {| provider_id := provider_id state;
         current_db_data := entry_db e;
         scraped_data := entry_scraped e;
         discrepancies := ds;
         confidence_score := score None ds;
         status := if score None ds >? 80 then verified else flagged;
         _expected_confidence := None |} ).
Proof.
  destruct state as [pid db sc ds0 c st ex]. unfold_run.
  destruct (score None _ >? 80); reflexivity.
Qed.

Lemma invoke_threaded_result (state : AgentState) :
  let e := get_mock_provider_data (provider_id state) in
  let ds := find_discrepancies (entry_db e) (entry_scraped e) in
  let ex := Some (default 75 (entry_confidence e)) in
  invoke_threaded state
  = ( [ "fetch_provider"; "scrape_web"; "quality_assurance";
        if score ex ds >? 80 then "update_db" else "flag_review" ],
      {| provider_id := provider_id state;
         current_db_data := entry_db e;
         scraped_data := entry_scraped e;
         discrepancies := ds;
         confidence_score := score ex ds;
         status := if score ex ds >? 80 then verified else flagged;
         _expected_confidence := ex |} ).
Proof.
  destruct state as [pid db sc ds0 c st ex0]. unfold_run.
  destruct (score (Some _) _ >? 80); reflexivity.
Qed.

Lemma mock_entry_agree (provider_id : Z) (f : string) :
  In f fields_to_compare -> f <> "phone" -> f <> "address" ->
  get_field (entry_db (get_mock_provider_data provider_id)) f
  = get_field (entry_scraped (get_mock_provider_data provider_id)) f.
Proof.
  intros Hin Hp Ha.
  destruct (mock_entry_facts provider_id) as (_ & _ & _ & Hall).
  rewrite List.Forall_forall in Hall.
  destruct (Hall f Hin) as (v & w & Hv & Hw & Heq).
  unfold get_field. rewrite Hv, Hw. cbn. now rewrite (Heq Hp Ha).
Qed.

Lemma mock_discrepancy_fields (provider_id : Z) (f : string) :
  In f (map field (find_discrepancies
                     (entry_db (get_mock_provider_data provider_id))
                     (entry_scraped (get_mock_provider_data provider_id)))) ->
  f = "phone" \/ f = "address".
Proof.
  rewrite discrepancy_fields, List.filter_In. intros [Hin Hdisc].
  destruct (String.eqb_spec f "phone") as [|Hp]; [now left|].
  destruct (String.eqb_spec f "address") as [|Ha]; [now right|].
  unfold is_discrepancy in Hdisc.
  rewrite (mock_entry_agree provider_id f Hin Hp Ha), String.eqb_refl in Hdisc.
  discriminate Hdisc.
Qed.

Lemma mock_discrepancy_count (provider_id : Z) :
  PyStr.len (find_discrepancies
               (entry_db (get_mock_provider_data provider_id))
               (entry_scraped (get_mock_provider_data provider_id))) <= 2.
Proof.
  unfold PyStr.len. rewrite <- (length_map field), discrepancy_fields.
  set (p := is_discrepancy _ _).
  assert (Hrest : forall f, In f fields_to_compare -> f <> "phone" -> f <> "address" ->
                            p f = false).
  { intros f Hin Hp Ha. subst p. unfold is_discrepancy.
    now rewrite (mock_entry_agree provider_id f Hin Hp Ha), String.eqb_refl. }
  unfold fields_to_compare in *. cbn [List.filter].
  rewrite (Hrest "name"), (Hrest "specialty"), (Hrest "city"), (Hrest "state"),
    (Hrest "zip"), (Hrest "license_number"), (Hrest "npi")
    by (cbn; first [tauto | discriminate]).
  destruct (p "phone"), (p "address"); cbn; lia.
Qed.

(** ** What a run yields *)

(** X11. A run depends on the identifier alone: whatever else the initial
    state holds (records, discrepancies, confidence, status, a baseline),
    two states with the same identifier give the same nodes run and the
    same final state. *)
Theorem run_depends_on_identifier_only (s1 s2 : AgentState) :
  provider_id s1 = provider_id s2 ->
  invoke s1 = invoke s2 /\ invoke_threaded s1 = invoke_threaded s2.
Proof.
  intros Hid. rewrite !invoke_result, !invoke_threaded_result, Hid. split; reflexivity.
Qed.

Lemma run_depends_on_identifier_only_witness :
  invoke (table_state 2001 (Some 3)) = invoke (initial_state 0)
  /\ invoke_threaded (table_state 2001 (Some 3)) = invoke_threaded (initial_state 0).
Proof.
  apply (run_depends_on_identifier_only (table_state 2001 (Some 3)) (initial_state 0)).
  reflexivity.
Defined.

(** X12. Running the graph again on the state a run ended with gives the
    same nodes and the same state: a run is idempotent. *)
Theorem rerun_same_result (state : AgentState) :
  invoke (snd (invoke state)) = invoke state
  /\ invoke_threaded (snd (invoke_threaded state)) = invoke_threaded state.
Proof.
  split.
  - rewrite (invoke_result state). cbn [snd]. rewrite invoke_result. reflexivity.
  - rewrite (invoke_threaded_result state). cbn [snd].
    rewrite invoke_threaded_result. reflexivity.
Qed.

(** X13. Whatever the initial state, the confidence a run ends with lies in
    [0, 100], with the baseline dropped between the nodes or kept. *)
Theorem run_confidence_in_range (state : AgentState) :
  0 <= confidence_score (snd (invoke state)) <= 100
  /\ 0 <= confidence_score (snd (invoke_threaded state)) <= 100.
Proof.
  rewrite invoke_result, invoke_threaded_result. cbn [snd confidence_score]. split.
  - now apply score_range.
  - apply score_range.
    destruct (mock_entry_facts (provider_id state)) as (_ & _ & (b & Hb & Hrange) & _).
    rewrite Hb. cbn. lia.
Qed.

(** X14. A run never ends pending: the final status is verified when the
    final confidence is above 80 and flagged otherwise, and the fourth node
    run is [update_db] in the first case and [flag_review] in the second. *)
Theorem run_status_matches_confidence (state : AgentState) :
  let ran := fst (invoke state) in
  let final := snd (invoke state) in
  (confidence_score final > 80
   /\ status final = verified
   /\ ran = ["fetch_provider"; "scrape_web"; "quality_assurance"; "update_db"])
  \/ (confidence_score final <= 80
      /\ status final = flagged
      /\ ran = ["fetch_provider"; "scrape_web"; "quality_assurance"; "flag_review"]).
Proof.
  rewrite invoke_result. cbn [fst snd confidence_score status].
  destruct (Z.gtb_spec
              (score None
                 (find_discrepancies
                    (entry_db (get_mock_provider_data (provider_id state)))
                    (entry_scraped (get_mock_provider_data (provider_id state))))) 80);
    [left|right]; repeat split; lia.
Qed.

(** X15. A run only ever records [phone] and [address]: the final state
    holds at most two discrepancies, and the records it holds are the two
    records of the table entry of the identifier. *)
Theorem run_records_phone_and_address_only (state : AgentState) :
  let final := snd (invoke state) in
  current_db_data final = entry_db (get_mock_provider_data (provider_id state))
  /\ scraped_data final = entry_scraped (get_mock_provider_data (provider_id state))
  /\ provider_id final = provider_id state
  /\ PyStr.len (discrepancies final) <= 2
  /\ (forall d, In d (discrepancies final) ->
        field d = "phone" \/ field d = "address").
Proof.
  rewrite invoke_result. cbn [snd current_db_data scraped_data provider_id discrepancies].
  repeat split.
  - apply mock_discrepancy_count.
  - intros d Hd. apply (mock_discrepancy_fields (provider_id state)).
    exact (in_map field _ d Hd).
Qed.

Lemma default_discrepancies (provider_id : Z) :
  find_discrepancies (entry_db (default_provider provider_id))
                     (entry_scraped (default_provider provider_id))
  = [ {| field := "phone";
         db_value := "+91-11-2658-3456";
         scraped_value := "+91-11-2658-3457" |} ].
Proof. vm_compute. reflexivity. Qed.

(** X16. An identifier that is not in the table is always flagged: the run
    records the one phone discrepancy of the default entry and ends with
    confidence 75 (70 when the baseline is kept between the nodes). *)
Theorem unknown_identifier_flagged (state : AgentState) :
  providers !! provider_id state = None ->
  discrepancies (snd (invoke state))
  = [ {| field := "phone";
         db_value := "+91-11-2658-3456";
         scraped_value := "+91-11-2658-3457" |} ]
  /\ confidence_score (snd (invoke state)) = 75
  /\ status (snd (invoke state)) = flagged
  /\ confidence_score (snd (invoke_threaded state)) = 70
  /\ status (snd (invoke_threaded state)) = flagged.
Proof.
  intros Hnone. rewrite invoke_result, invoke_threaded_result.
  cbn [snd discrepancies confidence_score status].
  unfold get_mock_provider_data. rewrite Hnone, default_discrepancies.
  repeat split; reflexivity.
Qed.

Lemma unknown_identifier_flagged_witness :
  providers !! provider_id (initial_state 7) = None
  /\ confidence_score (snd (invoke (initial_state 7))) = 75
  /\ status (snd (invoke (initial_state 7))) = flagged.
Proof.
  assert (Hnone : providers !! provider_id (initial_state 7) = None)
    by (vm_compute; reflexivity).
  split; [exact Hnone|].
  destruct (unknown_identifier_flagged (initial_state 7) Hnone) as (_ & Hc & Hs & _).
  split; [exact Hc | exact Hs].
Defined.

(** ** The handler's answer *)

Lemma validate_provider_positive (request_provider_id : Z) :
  0 < request_provider_id ->
  let e := get_mock_provider_data request_provider_id in
  let ds := find_discrepancies (entry_db e) (entry_scraped e) in
  let c := score None ds in
  validate_provider request_provider_id
  = ( state_built
        :: map node_ran
             [ "fetch_provider"; "scrape_web"; "quality_assurance";
               if c >? 80 then "update_db" else "flag_review" ],
      inr {| success := true;
             response_provider_id := request_provider_id;
             response_status := if c >? 80 then verified else flagged;
             response_confidence_score := c;
             response_current_db_data := entry_db e;
             response_scraped_data := entry_scraped e;
             response_discrepancies := ds;
             workflow_steps :=
               [ "fetch_provider"; "scrape_web"; "quality_assurance";
                 if c >? 80 then "update_db" else "flag_review" ];
             message :=
               if c >? 80
               then "Provider " ++ py_str (PInt request_provider_id)
                      ++ " has been verified and updated in the database."
               else "Provider " ++ py_str (PInt request_provider_id)
                      ++ " has been flagged for human review due to data discrepancies." |} ).
Proof.
  intros Hpos e ds c. unfold validate_provider.
  destruct (Z.leb_spec request_provider_id 0); [lia|].
  rewrite invoke_result.
  cbn [initial_state provider_id confidence_score status current_db_data
       scraped_data discrepancies].
  fold e. fold ds. fold c.
  destruct (c >? 80); reflexivity.
Qed.

(** X17. The steps a response reports are the nodes the graph ran for that
    request, in order: the list is rebuilt from the final confidence, and
    it agrees with the run. *)
Theorem reported_steps_are_nodes_run (request_provider_id : Z) :
  0 < request_provider_id ->
  exists response : WorkflowResponse,
    validate_provider request_provider_id
    = (state_built :: map node_ran (workflow_steps response), inr response).
Proof.
  intros Hpos. rewrite (validate_provider_positive _ Hpos).
  eexists. apply f_equal2.
  2: reflexivity.
  reflexivity.
Qed.

Lemma reported_steps_are_nodes_run_witness :
  0 < 1003
  /\ exists response : WorkflowResponse,
       validate_provider 1003
       = (state_built :: map node_ran (workflow_steps response), inr response).
Proof.
  split; [lia|]. apply (reported_steps_are_nodes_run 1003). lia.
Defined.

(** X18. The response to a positive identifier is consistent: it carries the
    requested identifier, also under ["id"] of both records, a confidence in
    [0, 100], at most two discrepancies, and either a confidence above 80
    with status verified and the "verified" message, or a confidence of at
    most 80 with status flagged and the "flagged" message. *)
Theorem response_consistent (request_provider_id : Z) :
  0 < request_provider_id ->
  exists (events : list Event) (response : WorkflowResponse),
    validate_provider request_provider_id = (events, inr response)
    /\ success response = true
    /\ response_provider_id response = request_provider_id
    /\ response_current_db_data response !! "id" = Some (PInt request_provider_id)
    /\ response_scraped_data response !! "id" = Some (PInt request_provider_id)
    /\ 0 <= response_confidence_score response <= 100
    /\ PyStr.len (response_discrepancies response) <= 2
    /\ ((response_confidence_score response > 80
         /\ response_status response = verified
         /\ message response
            = "Provider " ++ py_str (PInt request_provider_id)
                ++ " has been verified and updated in the database.")
        \/ (response_confidence_score response <= 80
            /\ response_status response = flagged
            /\ message response
               = "Provider " ++ py_str (PInt request_provider_id)
                   ++ " has been flagged for human review due to data discrepancies.")).
Proof.
  intros Hpos. rewrite (validate_provider_positive _ Hpos).
  eexists _, _. split; [reflexivity|].
  cbn [success response_provider_id response_current_db_data response_scraped_data
       response_confidence_score response_discrepancies response_status message].
  destruct (mock_entry_facts request_provider_id) as (Hdb & Hsc & _ & _).
  split; [reflexivity|]. split; [reflexivity|].
  split; [exact Hdb|]. split; [exact Hsc|].
  split; [now apply score_range|].
  split; [apply mock_discrepancy_count|].
  destruct (Z.gtb_spec
              (score None
                 (find_discrepancies
                    (entry_db (get_mock_provider_data request_provider_id))
                    (entry_scraped (get_mock_provider_data request_provider_id)))) 80);
    [left|right]; repeat split; lia.
Qed.

Lemma response_consistent_witness :
  0 < 3001
  /\ exists (events : list Event) (response : WorkflowResponse),
       validate_provider 3001 = (events, inr response)
       /\ response_provider_id response = 3001
       /\ 0 <= response_confidence_score response <= 100.
Proof.
  split; [lia|].
  destruct (response_consistent 3001 ltac:(lia))
    as (events & response & Hrun & _ & Hid & _ & _ & Hrange & _).
  exists events, response. split; [exact Hrun|]. split; [exact Hid | exact Hrange].
Defined.

(** ** Normalization *)

Lemma lower_char_idem (c : ascii) :
  PyStr.lower_char (PyStr.lower_char c) = PyStr.lower_char c.
Proof. destruct c as [[] [] [] [] [] [] [] []]; reflexivity. Qed.

Lemma is_space_lower_char (c : ascii) :
  PyStr.is_space (PyStr.lower_char c) = PyStr.is_space c.
Proof. destruct c as [[] [] [] [] [] [] [] []]; reflexivity. Qed.

Lemma append_cons (c : ascii) (a b : string) :
  String c a ++ b = String c (a ++ b).
Proof. reflexivity. Qed.

Lemma append_nil (b : string) : "" ++ b = b.
Proof. reflexivity. Qed.

Lemma lower_idem (s : string) : PyStr.lower (PyStr.lower s) = PyStr.lower s.
Proof.
  induction s as [|c s IH]; [reflexivity|].
  cbn [PyStr.lower]. now rewrite lower_char_idem, IH.
Qed.

Lemma lower_app (a b : string) :
  PyStr.lower (a ++ b) = PyStr.lower a ++ PyStr.lower b.
Proof.
  induction a as [|c a IH]; [reflexivity|].
  rewrite append_cons. cbn [PyStr.lower]. now rewrite append_cons, IH.
Qed.

Lemma all_space_lower (s : string) : all_space (PyStr.lower s) = all_space s.
Proof.
  unfold all_space. induction s as [|c s IH]; [reflexivity|].
  cbn [PyStr.lower list_ascii_of_string forallb].
  now rewrite is_space_lower_char, IH.
Qed.

Lemma lstrip_all_space (p : string) : all_space p = true -> PyStr.lstrip p = "".
Proof.
  unfold all_space. induction p as [|c p IH]; [reflexivity|].
  cbn [list_ascii_of_string forallb PyStr.lstrip].
  intros H. apply andb_true_iff in H as [Hc Hp]. rewrite Hc. now apply IH.
Qed.

Lemma rstrip_all_space (p : string) : all_space p = true -> PyStr.rstrip p = "".
Proof.
  unfold all_space. induction p as [|c p IH]; [reflexivity|].
  cbn [list_ascii_of_string forallb PyStr.rstrip].
  intros H. apply andb_true_iff in H as [Hc Hp]. now rewrite (IH Hp), Hc.
Qed.

Lemma lstrip_prepend (p s : string) :
  all_space p = true -> PyStr.lstrip (p ++ s) = PyStr.lstrip s.
Proof.
  unfold all_space. induction p as [|c p IH]; [reflexivity|].
  cbn [list_ascii_of_string forallb]. rewrite append_cons. cbn [PyStr.lstrip].
  intros H. apply andb_true_iff in H as [Hc Hp]. rewrite Hc. now apply IH.
Qed.

Lemma rstrip_append (t p : string) :
  all_space p = true -> PyStr.rstrip (t ++ p) = PyStr.rstrip t.
Proof.
  intros Hp. induction t as [|c t IH].
  - rewrite append_nil. now apply rstrip_all_space.
  - rewrite append_cons. cbn [PyStr.rstrip]. now rewrite IH.
Qed.

Lemma lstrip_append (s p : string) :
  all_space p = true ->
  PyStr.rstrip (PyStr.lstrip (s ++ p)) = PyStr.rstrip (PyStr.lstrip s).
Proof.
  intros Hp. induction s as [|c s IH].
  - rewrite append_nil. cbn [PyStr.lstrip PyStr.rstrip].
    now rewrite (lstrip_all_space p Hp).
  - rewrite append_cons. cbn [PyStr.lstrip]. destruct (PyStr.is_space c); [exact IH|].
    rewrite <- append_cons. now apply rstrip_append.
Qed.

Lemma strip_padding (pre s post : string) :
  all_space pre = true -> all_space post = true ->
  PyStr.strip (pre ++ s ++ post) = PyStr.strip s.
Proof.
  intros Hpre Hpost. unfold PyStr.strip.
  rewrite (lstrip_prepend pre _ Hpre). now apply lstrip_append.
Qed.

Lemma normalize_padding (pre s post : string) :
  all_space pre = true -> all_space post = true ->
  normalize (PStr (pre ++ s ++ post)) = normalize (PStr s).
Proof.
  intros Hpre Hpost. unfold normalize. cbn [py_str].
  rewrite !lower_app. apply strip_padding; now rewrite all_space_lower.
Qed.

Lemma normalize_lower (s : string) :
  normalize (PStr (PyStr.lower s)) = normalize (PStr s).
Proof. unfold normalize. cbn [py_str]. now rewrite lower_idem. Qed.

Lemma get_field_insert (d : gmap string pyval) (f g : string) (v : pyval) :
  get_field (<[ f := v ]> d) g = if decide (f = g) then v else get_field d g.
Proof.
  unfold get_field. destruct (decide (f = g)) as [->|Hne].
  - now rewrite lookup_insert_eq.
  - now rewrite lookup_insert_ne.
Qed.

Lemma same_normal_form_db (state : AgentState) (f v v' : string) :
  normalize (PStr v) = normalize (PStr v') ->
  map field (discrepancies (quality_assurance_node (with_db_value state f v)))
  = map field (discrepancies (quality_assurance_node (with_db_value state f v'))).
Proof.
  intros Hn. rewrite !qa_discrepancies, !discrepancy_fields.
  cbn [with_db_value current_db_data scraped_data].
  apply List.filter_ext. intros g. unfold is_discrepancy.
  rewrite !get_field_insert. destruct (decide (f = g)); [now rewrite Hn|reflexivity].
Qed.

Lemma same_normal_form_scraped (state : AgentState) (f v v' : string) :
  normalize (PStr v) = normalize (PStr v') ->
  map field (discrepancies (quality_assurance_node (with_scraped_value state f v)))
  = map field (discrepancies (quality_assurance_node (with_scraped_value state f v'))).
Proof.
  intros Hn. rewrite !qa_discrepancies, !discrepancy_fields.
  cbn [with_scraped_value current_db_data scraped_data].
  apply List.filter_ext. intros g. unfold is_discrepancy.
  rewrite !get_field_insert. destruct (decide (f = g)); [now rewrite Hn|reflexivity].
Qed.

(** X19. The comparison ignores surrounding whitespace and letter case:
    padding a value of either record with whitespace on both sides, or
    lowercasing it, changes neither which fields are recorded nor their
    order. *)
Theorem padding_and_case_ignored (state : AgentState) (f pre s post : string) :
  all_space pre = true ->
  all_space post = true ->
  map field (discrepancies (quality_assurance_node
                              (with_db_value state f (pre ++ s ++ post))))
  = map field (discrepancies (quality_assurance_node (with_db_value state f s)))
  /\ map field (discrepancies (quality_assurance_node
                                 (with_db_value state f (PyStr.lower s))))
     = map field (discrepancies (quality_assurance_node (with_db_value state f s)))
  /\ map field (discrepancies (quality_assurance_node
                                 (with_scraped_value state f (pre ++ s ++ post))))
     = map field (discrepancies (quality_assurance_node (with_scraped_value state f s)))
  /\ map field (discrepancies (quality_assurance_node
                                 (with_scraped_value state f (PyStr.lower s))))
     = map field (discrepancies (quality_assurance_node (with_scraped_value state f s))).
Proof.
  intros Hpre Hpost. repeat split.
  - apply same_normal_form_db. now apply normalize_padding.
  - apply same_normal_form_db. apply normalize_lower.
  - apply same_normal_form_scraped. now apply normalize_padding.
  - apply same_normal_form_scraped. apply normalize_lower.
Qed.

Lemma padding_and_case_ignored_witness :
  all_space "  " = true
  /\ map field (discrepancies (quality_assurance_node
                  (with_db_value (table_state 2001 None) "phone"
                     ("  " ++ "+91-40-2789-4568" ++ "  "))))
     = map field (discrepancies (quality_assurance_node
                  (with_db_value (table_state 2001 None) "phone" "+91-40-2789-4568"))).
Proof.
  split; [reflexivity|].
  apply (proj1 (padding_and_case_ignored (table_state 2001 None) "phone"
                  "  " "+91-40-2789-4568" "  " eq_refl eq_refl)).
Defined.

(** ** The graph handle across requests *)

Lemma handle_request_answer (request_provider_id : Z) (g : Globals) :
  workflow_graph g = None \/ workflow_graph g = Some create_workflow_graph ->
  fst (handle_request request_provider_id g) = validate_provider request_provider_id.
Proof.
  intros Hg. unfold handle_request, validate_provider, get_workflow_graph.
  destruct (request_provider_id <=? 0); [reflexivity|].
  destruct Hg as [-> | ->]; unfold create_workflow_graph;
    destruct (invoke (initial_state request_provider_id)); reflexivity.
Qed.

Lemma handle_request_globals (request_provider_id : Z) (g : Globals) :
  snd (handle_request request_provider_id g)
  = if request_provider_id <=? 0 then g
    else match workflow_graph g with
         | None => {| workflow_graph := Some create_workflow_graph;
                      graphs_created := S (graphs_created g) |}
         | Some _ => g
         end.
Proof.
  unfold handle_request, get_workflow_graph.
  destruct (request_provider_id <=? 0); [reflexivity|].
  destruct (workflow_graph g) as [graph|].
  - destruct (graph (initial_state request_provider_id)); reflexivity.
  - destruct (create_workflow_graph (initial_state request_provider_id)); reflexivity.
Qed.

Lemma serve_cons (r : Z) (rest : list Z) (g : Globals) :
  serve (r :: rest) g
  = ( fst (handle_request r g) :: fst (serve rest (snd (handle_request r g))),
      snd (serve rest (snd (handle_request r g))) ).
Proof.
  cbn [serve]. destruct (handle_request r g) as [answer g'].
  cbn [fst snd]. destruct (serve rest g'); reflexivity.
Qed.

Lemma serve_general (requests : list Z) :
  forall g : Globals,
    workflow_graph g = None \/ workflow_graph g = Some create_workflow_graph ->
    fst (serve requests g) = map validate_provider requests
    /\ workflow_graph (snd (serve requests g))
       = (if existsb (fun r => 0 <? r) requests
          then Some create_workflow_graph else workflow_graph g)
    /\ graphs_created (snd (serve requests g))
       = match workflow_graph g with
         | Some _ => graphs_created g
         | None => if existsb (fun r => 0 <? r) requests
                   then S (graphs_created g) else graphs_created g
         end.
Proof.
  induction requests as [|r rest IH]; intros g Hg.
  - cbn [serve fst snd map existsb]. split; [reflexivity|]. split; [reflexivity|].
    now destruct (workflow_graph g).
  - rewrite serve_cons. cbn [fst snd map existsb].
    rewrite (handle_request_answer r g Hg), handle_request_globals.
    destruct (Z.leb_spec r 0) as [Hle|Hgt].
    + destruct (IH g Hg) as (Ha & Hw & Hc).
      rewrite Ha, Hw, Hc. destruct (Z.ltb_spec 0 r); [lia|]. auto.
    + destruct (Z.ltb_spec 0 r); [|lia]. cbn [orb].
      destruct Hg as [Hnone|Hsome].
      * rewrite Hnone.
        destruct (IH {| workflow_graph := Some create_workflow_graph;
                        graphs_created := S (graphs_created g) |}
                     (or_intror eq_refl)) as (Ha & Hw & Hc).
        rewrite Ha, Hw, Hc. cbn [workflow_graph graphs_created].
        split; [reflexivity|]. split; [|reflexivity].
        now destruct (existsb _ rest).
      * rewrite Hsome. destruct (IH g (or_intror Hsome)) as (Ha & Hw & Hc).
        rewrite Ha, Hw, Hc, Hsome.
        split; [reflexivity|]. split; [|reflexivity].
        now destruct (existsb _ rest).
Qed.

(** X20. Requests are answered independently of one another, and the graph
    is built lazily and once: a server started with no graph answers every
    request of a sequence as [validate_provider] alone would, builds the
    graph exactly once if some request has a positive identifier, and never
    builds it when every request is rejected. *)
Theorem graph_built_once (requests : list Z) :
  fst (serve requests fresh_globals) = map validate_provider requests
  /\ graphs_created (snd (serve requests fresh_globals))
     = (if existsb (fun r => 0 <? r) requests then 1%nat else 0%nat)
  /\ (workflow_graph (snd (serve requests fresh_globals)) = None
      <-> existsb (fun r => 0 <? r) requests = false).
Proof.
  destruct (serve_general requests fresh_globals (or_introl eq_refl)) as (Ha & Hw & Hc).
  cbn [fresh_globals workflow_graph graphs_created] in Hw, Hc.
  split; [exact Ha|]. split; [exact Hc|].
  rewrite Hw. destruct (existsb _ requests); split; intros H; try reflexivity; discriminate H.
Qed.

(** ** An empty record *)

Lemma filter_none {A} (p : A -> bool) (l : list A) :
  (forall x, p x = false) -> List.filter p l = [].
Proof.
  intros Hp. induction l as [|x l IH]; [reflexivity|].
  cbn [List.filter]. now rewrite Hp.
Qed.

Lemma get_field_empty (f : string) : get_field ∅ f = PStr "".
Proof. apply get_field_missing, lookup_empty. Qed.

Lemma find_discrepancies_empty (r : gmap string pyval) :
  find_discrepancies r ∅ = [] /\ find_discrepancies ∅ r = [].
Proof.
  split; apply (map_eq_nil field); rewrite discrepancy_fields; apply filter_none;
    intros f; unfold is_discrepancy, is_minor_variation;
    rewrite get_field_empty, normalize_empty, isin_empty.
  - rewrite orb_true_r. cbn [orb negb]. apply andb_false_r.
  - cbn [orb negb]. apply andb_false_r.
Qed.

(** X21. When one of the two records is empty, nothing is recorded whatever
    the other record holds; without a baseline the comparison then scores
    95 and the record is routed to verified. *)
Theorem empty_record_verifies (r : gmap string pyval) :
  (discrepancies (quality_assurance_node (qa_state r ∅ None)) = []
   /\ confidence_score (quality_assurance_node (qa_state r ∅ None)) = 95
   /\ status (route (quality_assurance_node (qa_state r ∅ None))) = verified)
  /\ (discrepancies (quality_assurance_node (qa_state ∅ r None)) = []
      /\ confidence_score (quality_assurance_node (qa_state ∅ r None)) = 95
      /\ status (route (quality_assurance_node (qa_state ∅ r None))) = verified).
Proof.
  destruct (find_discrepancies_empty r) as [H1 H2].
  split; rewrite route_verified_iff, qa_confidence, qa_discrepancies;
    cbn [qa_state current_db_data scraped_data _expected_confidence];
    rewrite ?H1, ?H2; repeat split; cbn; lia.
Qed.
